(** * lib_logger: trace identifiers, adapters and the Logger Core

    A shallow embedding of the logging library of the onboarding server
    (src/libs/lib_logger): [core.py], [config.py], [interceptor.py] and the
    adapters, together with the properties of its specification.

    Python strings are modelled as [string], the encoded text (ASCII text
    is its own encoding); the string methods whose result depends on the
    interpreter's Unicode tables are a parameter of the code that calls
    them.  Dictionaries are insertion-ordered association lists, exceptions the
    [Raise] branch of a result type, and the process state (class attributes
    of [LoggerCore], the context variable, loguru's handler table, the
    standard [logging] tree and the entropy consumed by [uuid.uuid4]) as an
    explicit [World] threaded through a state-and-exception monad. *)

From Stdlib Require Import String Ascii List ZArith Lia Bool DecimalString.
From Stdlib Require Strings.Byte.
Import ListNotations.
Open Scope string_scope.

(** ** Python strings *)

Module Str.

Definition code (c : ascii) : nat := nat_of_ascii c.

Definition between (lo hi : nat) (c : ascii) : bool :=
  (lo <=? code c)%nat && (code c <=? hi)%nat.

(** The ASCII rules of [str.upper] and [str.lower]: only the 26 letters
    move.  What the interpreter does beyond them is in [PyStr] below. *)
Definition upper_char (c : ascii) : ascii :=
  if between 97 122 c then ascii_of_nat (code c - 32) else c.

Definition lower_char (c : ascii) : ascii :=
  if between 65 90 c then ascii_of_nat (code c + 32) else c.

Fixpoint map (f : ascii -> ascii) (s : string) : string :=
  match s with
  | EmptyString => EmptyString
  | String c s' => String (f c) (map f s')
  end.

Definition upper : string -> string := map upper_char.
Definition lower : string -> string := map lower_char.

(** The ASCII rule of [str.isspace]: TAB..CR, FS..US and the blank. *)
Definition isspace (c : ascii) : bool :=
  between 9 13 c || between 28 32 c.

Fixpoint lstrip (s : string) : string :=
  match s with
  | EmptyString => EmptyString
  | String c s' => if isspace c then lstrip s' else s
  end.

Fixpoint rstrip (s : string) : string :=
  match s with
  | EmptyString => EmptyString
  | String c s' =>
      let t := rstrip s' in
      if isspace c && (t =? "") then "" else String c t
  end.

(** [s.strip()] with no argument, by the ASCII rule. *)
Definition strip (s : string) : string := rstrip (lstrip s).

(** [s.replace(old, new)] for a non-empty [old]: occurrences are replaced
    from left to right and do not overlap.  [skip] counts the characters of
    an occurrence that remain to be dropped. *)
Fixpoint replace_from (old new : string) (skip : nat) (s : string) : string :=
  match s with
  | EmptyString => EmptyString
  | String c s' =>
      match skip with
      | S k => replace_from old new k s'
      | O =>
          if prefix old s
          then new ++ replace_from old new (String.length old - 1) s'
          else String c (replace_from old new 0 s')
      end
  end.

Definition replace (old new s : string) : string := replace_from old new 0 s.

(** [s[:n]] *)
Definition take (n : nat) (s : string) : string := substring 0 n s.

Fixpoint all (p : ascii -> bool) (s : string) : bool :=
  match s with
  | EmptyString => true
  | String c s' => p c && all p s'
  end.

(** The character class [0-9a-f]. *)
Definition is_lower_hex (c : ascii) : bool :=
  between 48 57 c || between 97 102 c.

(** [truthiness of a str]: non-empty. *)
Definition nonempty (s : string) : bool := negb (s =? "").

(** [str(n)] for an int. *)
Definition of_Z (z : Z) : string := NilZero.string_of_int (Z.to_int z).

End Str.

(** ** The interpreter's string methods

    [str.upper()], [str.lower()] and [str.strip()] follow the Unicode tables
    of the interpreter, which are no part of the repository: beyond ASCII,
    [upper] turns the dotless i (U+0131) into "I" and the long s (U+017F)
    into "S", and [strip] removes the no-break space (U+00A0) and the other
    Unicode blanks.  The three methods are therefore a parameter [py] of the
    code that calls them; a [string] stands for the encoded text.  On ASCII
    text they are [Str.upper], [Str.lower] and [Str.strip]. *)
Record PyStr : Type := {
  py_upper : string -> string;
  py_lower : string -> string;
  py_strip : string -> string
}.

Definition ascii_only (s : string) : bool :=
  Str.all (fun c => (Str.code c <? 128)%nat) s.

(** What every interpreter's tables do on ASCII text. *)
Definition agrees_on_ascii (py : PyStr) : Prop :=
  forall s : string,
    ascii_only s = true ->
    py_upper py s = Str.upper s
    /\ py_lower py s = Str.lower s
    /\ py_strip py s = Str.strip s.

(** The methods restricted to the ASCII rules. *)
Definition py_ascii : PyStr :=
  {| py_upper := Str.upper; py_lower := Str.lower; py_strip := Str.strip |}.

(** Two of the rules beyond ASCII, on UTF-8 text: the dotless i, whose upper
    case is "I", and the no-break space, which [strip] removes. *)
Definition dotless_i : string :=
  String (ascii_of_nat 196) (String (ascii_of_nat 177) "").

Definition nbsp : string :=
  String (ascii_of_nat 194) (String (ascii_of_nat 160) "").

Definition upper_wide (s : string) : string :=
  Str.upper (Str.replace dotless_i "I" s).

Fixpoint lstrip_wide (s : string) : string :=
  match s with
  | EmptyString => EmptyString
  | String c s' =>
      if Str.isspace c then lstrip_wide s'
      else
        match s' with
        | String d s'' =>
            if (Str.code c =? 194)%nat && (Str.code d =? 160)%nat
            then lstrip_wide s''
            else s
        | EmptyString => s
        end
  end.

Fixpoint rstrip_wide (s : string) : string :=
  match s with
  | EmptyString => EmptyString
  | String c s' =>
      let t := rstrip_wide s' in
      if Str.isspace c && (t =? "") then ""
      else if (Str.code c =? 194)%nat && (t =? String (ascii_of_nat 160) "")
      then ""
      else String c t
  end.

(** Methods that know the ASCII rules and these two. *)
Definition py_sample : PyStr :=
  {| py_upper := upper_wide;
     py_lower := Str.lower;
     py_strip := fun s => rstrip_wide (lstrip_wide s) |}.

(** ** Exceptions and results *)

(** The exceptions the embedded code meets: [ValueError], the only one it
    catches, tagged with the value that was rejected, and [TypeError]. *)
Inductive exn : Type :=
| ValueError (culprit : string)
| TypeError (culprit : string).

Inductive Result (A : Type) : Type :=
| Ok (a : A)
| Raise (e : exn).
Arguments Ok {A} a.
Arguments Raise {A} e.

Definition is_ok {A} (r : Result A) : bool :=
  match r with Ok _ => true | Raise _ => false end.

(** ** Python values found in a record's [extra] mapping

    Scalars, and [PObj] for any other object, of which only [str(obj)] and
    its truth value matter to the code embedded here. *)

Inductive pyval : Type :=
| PNone
| PBool (b : bool)
| PInt (z : Z)
| PStr (s : string)
| PObj (text : string) (truth : bool).

Definition truthy (v : pyval) : bool :=
  match v with
  | PNone => false
  | PBool b => b
  | PInt z => negb (z =? 0)%Z
  | PStr s => Str.nonempty s
  | PObj _ t => t
  end.

Definition py_str (v : pyval) : string :=
  match v with
  | PNone => "None"
  | PBool true => "True"
  | PBool false => "False"
  | PInt z => Str.of_Z z
  | PStr s => s
  | PObj text _ => text
  end.

(** [a or b] *)
Definition py_or (a b : pyval) : pyval := if truthy a then a else b.

(** ** Dictionaries with string keys, in insertion order *)

Module Dict.
Section WithValues.
Context {V : Type}.

Definition t := list (string * V).

(** [d.get(k)] *)
Fixpoint get (k : string) (d : list (string * V)) : option V :=
  match d with
  | [] => None
  | (k', v) :: d' => if k' =? k then Some v else get k d'
  end.

(** [d[k] = v]: an existing key keeps its place, a new key goes last. *)
Fixpoint set (k : string) (v : V) (d : list (string * V)) : list (string * V) :=
  match d with
  | [] => [(k, v)]
  | (k', v') :: d' => if k' =? k then (k', v) :: d' else (k', v') :: set k v d'
  end.

(** [k in d] *)
Definition mem (k : string) (d : list (string * V)) : bool :=
  match get k d with Some _ => true | None => false end.

Definition get_default (k : string) (default : V) (d : list (string * V)) : V :=
  match get k d with Some v => v | None => default end.
End WithValues.
End Dict.

(** ** Adapters (adapters/base.py, console.py, json.py, gcp.py)

    The three concrete subclasses of [BaseAdapter], each with the attributes
    its [__init__] stores.  The extra keyword arguments kept in
    [self.config] are read by no method and are left out. *)

Inductive Adapter : Type :=
| ConsoleAdapter (level : string) (colorize : bool)
| JSONAdapter (level : string)
| GCPAdapter (level : string) (project_id : option string).

(** [ConsoleAdapter()], with the defaults [level="DEBUG"], [colorize=True]. *)
Definition ConsoleAdapter_default : Adapter := ConsoleAdapter "DEBUG" true.

(** [self.level] *)
Definition adapter_level (a : Adapter) : string :=
  match a with
  | ConsoleAdapter level _ => level
  | JSONAdapter level => level
  | GCPAdapter level _ => level
  end.

(** Destinations handed to loguru: the two standard streams, or the bound
    method [GCPAdapter._sink] of an adapter with the given project id. *)
Inductive Sink : Type :=
| sys_stderr
| sys_stdout
| gcp_sink (project_id : option string).

(** The dictionary returned by [get_sink_config]; an absent key is [None]. *)
Record SinkConfig : Type := {
  cfg_sink : Sink;
  cfg_format : option string;
  cfg_level : string;
  cfg_colorize : option bool;
  cfg_serialize : option bool
}.

Definition console_format : string :=
  "<green>{time:YYYY-MM-DD HH:mm:ss}</green> | " ++
  "<level>{level: <8}</level> | " ++
  "<dim>{extra[trace_id]}</dim> | " ++
  "<cyan>{extra[name]}</cyan> | " ++
  "<dim>{file}:{line}</dim> | " ++
  "<level>{message}</level>".

Definition get_sink_config (a : Adapter) : SinkConfig :=
  match a with
  | ConsoleAdapter level colorize =>
      {| cfg_sink := sys_stderr; cfg_format := Some console_format;
         cfg_level := level; cfg_colorize := Some colorize;
         cfg_serialize := None |}
  | JSONAdapter level =>
      {| cfg_sink := sys_stdout; cfg_format := Some "{message}";
         cfg_level := level; cfg_colorize := Some false;
         cfg_serialize := Some true |}
  | GCPAdapter level project_id =>
      {| cfg_sink := gcp_sink project_id; cfg_format := None;
         cfg_level := level; cfg_colorize := Some false;
         cfg_serialize := None |}
  end.

(** ** The process state *)

(** loguru's level registry entries and installed handlers. *)
Record Level : Type := { level_name : string; level_no : Z }.

Record Handler : Type := {
  handler_id : nat;
  handler_levelno : Z;
  handler_config : SinkConfig
}.

(** The first argument of [logger.log]: a level name or a bare number. *)
Inductive LevelArg : Type :=
| LevelName (name : string)
| LevelNo (no : Z).

(** One call [logger.opt(depth, exception).bind(trace_id, name).log(level,
    message)] issued to loguru. *)
Record LogCall : Type := {
  call_depth : nat;
  call_exception : option string;
  call_trace_id : string;
  call_name : string;
  call_level : LevelArg;
  call_message : string
}.

(** Handlers of the standard [logging] package. *)
Inductive StdHandler : Type :=
| InterceptHandler
| StreamHandler
| OtherHandler (tag : string).

Record StdLogger : Type := {
  std_handlers : list StdHandler;
  std_propagate : bool
}.

Record World : Type := {
  (* class attributes of LoggerCore *)
  _configured : bool;
  _adapters : list Adapter;
  (* the value of _trace_id_var in the current context, if one was set *)
  _trace_id_var : option string;
  (* loguru: installed handlers, the id of the next one, levels added to
     the seven built-in ones, and the calls made to logger.log *)
  loguru_handlers : list Handler;
  loguru_next_id : nat;
  loguru_custom_levels : list Level;
  loguru_calls : list LogCall;
  (* logging: the loggers created so far, the root one under "root" *)
  logging_loggers : list (string * StdLogger);
  (* os.urandom: the bytes the system will deliver, and how many were read *)
  urandom_source : nat -> Init.Byte.byte;
  urandom_pos : nat
}.

Definition with_configured (b : bool) (w : World) : World :=
  {| _configured := b; _adapters := _adapters w;
     _trace_id_var := _trace_id_var w;
     loguru_handlers := loguru_handlers w; loguru_next_id := loguru_next_id w;
     loguru_custom_levels := loguru_custom_levels w;
     loguru_calls := loguru_calls w;
     logging_loggers := logging_loggers w;
     urandom_source := urandom_source w; urandom_pos := urandom_pos w |}.

Definition with_adapters (a : list Adapter) (w : World) : World :=
  {| _configured := _configured w; _adapters := a;
     _trace_id_var := _trace_id_var w;
     loguru_handlers := loguru_handlers w; loguru_next_id := loguru_next_id w;
     loguru_custom_levels := loguru_custom_levels w;
     loguru_calls := loguru_calls w;
     logging_loggers := logging_loggers w;
     urandom_source := urandom_source w; urandom_pos := urandom_pos w |}.

Definition with_trace_id_var (t : option string) (w : World) : World :=
  {| _configured := _configured w; _adapters := _adapters w;
     _trace_id_var := t;
     loguru_handlers := loguru_handlers w; loguru_next_id := loguru_next_id w;
     loguru_custom_levels := loguru_custom_levels w;
     loguru_calls := loguru_calls w;
     logging_loggers := logging_loggers w;
     urandom_source := urandom_source w; urandom_pos := urandom_pos w |}.

Definition with_handlers (h : list Handler) (next : nat) (w : World) : World :=
  {| _configured := _configured w; _adapters := _adapters w;
     _trace_id_var := _trace_id_var w;
     loguru_handlers := h; loguru_next_id := next;
     loguru_custom_levels := loguru_custom_levels w;
     loguru_calls := loguru_calls w;
     logging_loggers := logging_loggers w;
     urandom_source := urandom_source w; urandom_pos := urandom_pos w |}.

Definition with_calls (c : list LogCall) (w : World) : World :=
  {| _configured := _configured w; _adapters := _adapters w;
     _trace_id_var := _trace_id_var w;
     loguru_handlers := loguru_handlers w; loguru_next_id := loguru_next_id w;
     loguru_custom_levels := loguru_custom_levels w;
     loguru_calls := c;
     logging_loggers := logging_loggers w;
     urandom_source := urandom_source w; urandom_pos := urandom_pos w |}.

Definition with_loggers (l : list (string * StdLogger)) (w : World) : World :=
  {| _configured := _configured w; _adapters := _adapters w;
     _trace_id_var := _trace_id_var w;
     loguru_handlers := loguru_handlers w; loguru_next_id := loguru_next_id w;
     loguru_custom_levels := loguru_custom_levels w;
     loguru_calls := loguru_calls w;
     logging_loggers := l;
     urandom_source := urandom_source w; urandom_pos := urandom_pos w |}.

Definition with_urandom_pos (p : nat) (w : World) : World :=
  {| _configured := _configured w; _adapters := _adapters w;
     _trace_id_var := _trace_id_var w;
     loguru_handlers := loguru_handlers w; loguru_next_id := loguru_next_id w;
     loguru_custom_levels := loguru_custom_levels w;
     loguru_calls := loguru_calls w;
     logging_loggers := logging_loggers w;
     urandom_source := urandom_source w; urandom_pos := p |}.

(** ** The monad of statements: a state change and a value or an exception.
    A raised exception keeps the state reached so far. *)

Definition M (A : Type) : Type := World -> Result A * World.

Definition ret {A} (a : A) : M A := fun w => (Ok a, w).

Definition raise {A} (e : exn) : M A := fun w => (Raise e, w).

Definition bind {A B} (m : M A) (f : A -> M B) : M B :=
  fun w =>
    match m w with
    | (Ok a, w') => f a w'
    | (Raise e, w') => (Raise e, w')
    end.

(** [try: m  except ValueError: h] *)
Definition try_except_ValueError {A} (m : M A) (h : M A) : M A :=
  fun w =>
    match m w with
    | (Ok a, w') => (Ok a, w')
    | (Raise (ValueError _), w') => h w'
    | (Raise e, w') => (Raise e, w')
    end.

(** A value computed outside the state, or the exception it raised. *)
Definition lift {A} (r : Result A) : M A := fun w => (r, w).

Definition gets {A} (f : World -> A) : M A := fun w => (Ok (f w), w).
Definition modify (f : World -> World) : M unit := fun w => (Ok tt, f w).

Declare Scope stmt_scope.
Delimit Scope stmt_scope with stmt.
Notation "x <- m ;; k" := (bind m (fun x => k))
  (at level 61, m at next level, right associativity) : stmt_scope.
Notation "m ;; k" := (bind m (fun _ => k))
  (at level 61, right associativity) : stmt_scope.
Open Scope stmt_scope.

(** [for x in xs: body x] *)
Fixpoint for_each {A} (xs : list A) (body : A -> M unit) : M unit :=
  match xs with
  | [] => ret tt
  | x :: xs' => body x ;; for_each xs' body
  end.

(** ** The standard library and loguru, as far as the code calls them *)

(** [os.urandom(n)]: the next [n] bytes of the system's entropy. *)
Definition os_urandom (n : nat) : M (list Init.Byte.byte) :=
  fun w =>
    (Ok (List.map (urandom_source w) (seq (urandom_pos w) n)),
     with_urandom_pos (urandom_pos w + n) w).

Module uuid.

(** [int.from_bytes(bs, "big")] *)
Definition int_from_bytes (bs : list Init.Byte.byte) : Z :=
  fold_left (fun acc b => acc * 256 + Z.of_N (Strings.Byte.to_N b))%Z bs 0%Z.

(** [UUID(bytes=bs, version=v).int]: the variant and version bits are forced. *)
Definition UUID_int (bs : list Init.Byte.byte) (version : Z) : Z :=
  let i := int_from_bytes bs in
  let i := Z.land i (Z.lnot (Z.shiftl 0xc000 48)) in
  let i := Z.lor i (Z.shiftl 0x8000 48) in
  let i := Z.land i (Z.lnot (Z.shiftl 0xf000 64)) in
  Z.lor i (Z.shiftl version 76).

Definition hex_char (d : Z) : ascii :=
  match get (Z.to_nat d) "0123456789abcdef" with
  | Some c => c
  | None => "0"%char
  end.

(** The [n] low-order hexadecimal digits of [z], most significant first. *)
Fixpoint hex_digits (n : nat) (z : Z) : string :=
  match n with
  | O => ""
  | S k => hex_digits k (z / 16) ++ String (hex_char (z mod 16)) ""
  end.

(** [UUID.hex], that is ['%032x' % self.int], for a 128-bit [int]. *)
Definition hex (i : Z) : string := hex_digits 32 i.

(** [uuid.uuid4().hex] *)
Definition uuid4_hex : M string :=
  bs <- os_urandom 16 ;;
  ret (hex (UUID_int bs 4)).

End uuid.

(** [ContextVar("trace_id", default="")]: [get] and [set] in the current
    context. *)
Definition trace_id_var_get : M string :=
  gets (fun w => match _trace_id_var w with Some t => t | None => "" end).

Definition trace_id_var_set (t : string) : M unit :=
  modify (with_trace_id_var (Some t)).

Module loguru.

(** The levels every loguru logger starts with. *)
Definition builtin_levels : list Level :=
  [ {| level_name := "TRACE"; level_no := 5 |};
    {| level_name := "DEBUG"; level_no := 10 |};
    {| level_name := "INFO"; level_no := 20 |};
    {| level_name := "SUCCESS"; level_no := 25 |};
    {| level_name := "WARNING"; level_no := 30 |};
    {| level_name := "ERROR"; level_no := 40 |};
    {| level_name := "CRITICAL"; level_no := 50 |} ].

Definition find_level (name : string) (levels : list Level) : option Level :=
  find (fun l => level_name l =? name) levels.

Definition levels (w : World) : list Level :=
  builtin_levels ++ loguru_custom_levels w.

(** [logger.level(name)]: the registered level, or [ValueError]. *)
Definition level (name : string) : M Level :=
  fun w =>
    match find_level name (levels w) with
    | Some l => (Ok l, w)
    | None => (Raise (ValueError name), w)
    end.

(** [logger.remove()]: every installed handler goes. *)
Definition remove : M unit :=
  modify (fun w => with_handlers [] (loguru_next_id w) w).

(** [logger.add], called with the keys of a sink configuration: the
    handler's id is taken from the counter first, then the threshold name is
    resolved in the level registry (an unknown name raises, the id is spent),
    then the handler is installed. *)
Definition add (cfg : SinkConfig) : M nat :=
  id <- (fun w =>
           (Ok (loguru_next_id w),
            with_handlers (loguru_handlers w) (S (loguru_next_id w)) w)) ;;
  l <- level (cfg_level cfg) ;;
  modify (fun w =>
    with_handlers
      (loguru_handlers w
       ++ [ {| handler_id := id; handler_levelno := level_no l;
               handler_config := cfg |} ])
      (loguru_next_id w) w) ;;
  ret id.

(** [logger.opt(...).bind(...).log(level, message)].  Without a handler the
    call returns at once.  Otherwise the level is resolved: a name must be in
    the registry and a number must not be negative, or [ValueError] is
    raised; the call is then accepted, and delivered to the handlers in
    [recipients]. *)
Definition log (c : LogCall) : M unit :=
  fun w =>
    match loguru_handlers w with
    | [] => (Ok tt, w)
    | _ :: _ =>
        match call_level c with
        | LevelName n =>
            match find_level n (levels w) with
            | Some _ => (Ok tt, with_calls (loguru_calls w ++ [c]) w)
            | None => (Raise (ValueError n), w)
            end
        | LevelNo no =>
            if (no <? 0)%Z then (Raise (ValueError (Str.of_Z no)), w)
            else (Ok tt, with_calls (loguru_calls w ++ [c]) w)
        end
    end.

(** The handlers that receive a record of severity number [no]. *)
Definition recipients (no : Z) (w : World) : list Handler :=
  filter (fun h => (handler_levelno h <=? no)%Z) (loguru_handlers w).

End loguru.

Module logging.

Definition new_logger : StdLogger :=
  {| std_handlers := []; std_propagate := true |}.

(** The key of [logging.getLogger(name)]: an empty name is the root logger. *)
Definition logger_key (name : string) : string :=
  if name =? "" then "root" else name.

(** [logging.getLogger(name)], created on first use. *)
Definition getLogger (name : string) (w : World) : StdLogger :=
  Dict.get_default (logger_key name) new_logger (logging_loggers w).

Definition putLogger (name : string) (l : StdLogger) : M unit :=
  modify (fun w =>
    with_loggers (Dict.set (logger_key name) l (logging_loggers w)) w).

(** [logging.basicConfig(force=True)]: the root logger's handlers are removed
    and a single stream handler is installed. *)
Definition basicConfig_force : M unit :=
  fun w =>
    let root := getLogger "root" w in
    putLogger "root"
      {| std_handlers := [StreamHandler];
         std_propagate := std_propagate root |} w.

End logging.

(** ** core.py: class LoggerCore *)

Module LoggerCore.

(** The handle returned by [logger.bind(name=..., trace_id=...)]. *)
Record Logger : Type := { bound_name : string; bound_trace_id : string }.

Definition configure (adapters : option (list Adapter)) : M unit :=
  configured <- gets _configured ;;
  if configured then ret tt
  else
    let adapters :=
      match adapters with
      | None => [ConsoleAdapter_default]
      | Some given => given
      end in
    modify (with_adapters adapters) ;;
    loguru.remove ;;
    (installed <- gets _adapters ;;
     for_each installed (fun adapter =>
       let sink_config := get_sink_config adapter in
       _ <- loguru.add sink_config ;; ret tt)) ;;
    modify (with_configured true).

Definition get_trace_id : M string :=
  trace_id <- trace_id_var_get ;;
  if negb (Str.nonempty trace_id) then
    h <- uuid.uuid4_hex ;;
    let trace_id := Str.take 8 h in
    trace_id_var_set trace_id ;;
    ret trace_id
  else ret trace_id.

Definition get_logger (name : string) : M Logger :=
  configure None ;;
  trace_id <- get_trace_id ;;
  ret {| bound_name := name; bound_trace_id := trace_id |}.

Definition set_trace_id (trace_id : string) : M unit :=
  trace_id_var_set trace_id.

Definition reset_trace_id : M unit :=
  h <- uuid.uuid4_hex ;;
  let trace_id := Str.take 8 h in
  trace_id_var_set trace_id.

Definition is_configured : M bool := gets _configured.

(** [cls._adapters.copy()] *)
Definition get_adapters : M (list Adapter) := gets _adapters.

End LoggerCore.

(** ** adapters/base.py: BaseAdapter.should_log *)

Module BaseAdapter.

Fixpoint position (x : string) (l : list string) : option nat :=
  match l with
  | [] => None
  | y :: l' =>
      if y =? x then Some O
      else match position x l' with Some i => Some (S i) | None => None end
  end.

(** [l.index(x)]: the first position of [x], or [ValueError]. *)
Definition index (x : string) (l : list string) : Result nat :=
  match position x l with
  | Some i => Ok i
  | None => Raise (ValueError x)
  end.

Definition levels : list string :=
  ["DEBUG"; "INFO"; "WARNING"; "ERROR"; "CRITICAL"].

Definition should_log (py : PyStr) (self : Adapter) (level : string)
  : Result bool :=
  match index (py_upper py (adapter_level self)) levels with
  | Raise e => Raise e
  | Ok min_level_idx =>
      match index (py_upper py level) levels with
      | Raise e => Raise e
      | Ok current_level_idx => Ok (min_level_idx <=? current_level_idx)%nat
      end
  end.

End BaseAdapter.

(** ** adapters/gcp.py: class GCPAdapter *)

Module GCPAdapter.

(** A loguru record, as far as the formatter reads it.  [rec_time_iso] is
    [record_dt.isoformat()], the record's time already converted to UTC. *)
Record LoguruRecord : Type := {
  rec_level_name : string;
  rec_message : string;
  rec_time_iso : string;
  rec_file_name : string;
  rec_line : Z;
  rec_function : string;
  rec_extra : list (string * pyval)
}.

(** The values of [log_entry]: scalars and the nested source location. *)
Inductive EntryVal : Type :=
| EVal (v : pyval)
| ESourceLocation (file : string) (line : Z) (function : string).

(** [re.fullmatch(r"[0-9a-f]{32}", value)] *)
Definition _is_gcp_trace_id (value : string) : bool :=
  (String.length value =? 32)%nat && Str.all Str.is_lower_hex value.

Definition level_map : list (string * string) :=
  [ ("TRACE", "DEBUG"); ("DEBUG", "DEBUG"); ("INFO", "INFO");
    ("SUCCESS", "INFO"); ("WARNING", "WARNING"); ("ERROR", "ERROR");
    ("CRITICAL", "CRITICAL") ].

Definition TRACE_KEY : string := "logging.googleapis.com/trace".

Definition option_truthy (s : option string) : bool :=
  match s with Some v => Str.nonempty v | None => false end.

Definition option_str (s : option string) : string :=
  match s with Some v => v | None => "None" end.

(** [key in ["trace_id", "name"]] *)
Definition consumed (key : string) : bool :=
  (key =? "trace_id") || (key =? "name").

(** [str(record["extra"].get("trace_id", "") or "")] *)
Definition record_trace_id (record : LoguruRecord) : string :=
  py_str (py_or (Dict.get_default "trace_id" (PStr "") (rec_extra record))
                (PStr "")).

(** [_gcp_formatter] builds [log_entry] in four steps, embedded one by one:
    the literal, the trace information, the logger name, the extra fields. *)

(** Map loguru levels to GCP severity, and build the entry. *)
Definition base_entry (record : LoguruRecord) : list (string * EntryVal) :=
  let severity := Dict.get_default (rec_level_name record) "INFO" level_map in
  [ ("severity", EVal (PStr severity));
    ("message", EVal (PStr (rec_message record)));
    ("timestamp",
      EVal (PStr (Str.replace "+00:00" "Z" (rec_time_iso record))));
    ("logging.googleapis.com/sourceLocation",
      ESourceLocation (rec_file_name record) (rec_line record)
                      (rec_function record)) ].

(** Add trace information. *)
Definition add_trace (project_id : option string) (trace_id : string)
  (log_entry : list (string * EntryVal)) : list (string * EntryVal) :=
  if Str.nonempty trace_id then
    let log_entry := Dict.set "trace_id" (EVal (PStr trace_id)) log_entry in
    if option_truthy project_id && _is_gcp_trace_id trace_id then
      Dict.set TRACE_KEY
        (EVal (PStr ("projects/" ++ option_str project_id ++ "/traces/"
                     ++ trace_id)))
        log_entry
    else log_entry
  else log_entry.

(** Add logger name. *)
Definition add_logger (extra : list (string * pyval))
  (log_entry : list (string * EntryVal)) : list (string * EntryVal) :=
  match Dict.get "name" extra with
  | Some logger_name =>
      if truthy logger_name
      then Dict.set "logger" (EVal (PStr (py_str logger_name))) log_entry
      else log_entry
  | None => log_entry
  end.

(** Add any extra fields. *)
Definition add_extras (extra : list (string * pyval))
  (log_entry : list (string * EntryVal)) : list (string * EntryVal) :=
  fold_left
    (fun log_entry kv =>
       if negb (consumed (fst kv))
       then Dict.set (fst kv) (EVal (snd kv)) log_entry
       else log_entry)
    extra log_entry.

(** The dictionary [log_entry] handed to [json.dumps], for an adapter whose
    [self.project_id] is [project_id]. *)
Definition log_entry (project_id : option string) (record : LoguruRecord)
  : list (string * EntryVal) :=
  let log_entry := base_entry record in
  let trace_id := record_trace_id record in
  let log_entry := add_trace project_id trace_id log_entry in
  let log_entry := add_logger (rec_extra record) log_entry in
  add_extras (rec_extra record) log_entry.

(** Fallback serializer for non-JSON-serializable values. *)
Definition _json_default (value : pyval) : string := py_str value.

(** [json.dumps(log_entry, default=self._json_default, ensure_ascii=False)]:
    the serialiser belongs to the standard library and is the parameter
    [dumps], which receives the fallback and the entry. *)
Definition _gcp_formatter
  (dumps : (pyval -> string) -> list (string * EntryVal) -> string)
  (project_id : option string) (record : LoguruRecord) : string :=
  dumps _json_default (log_entry project_id record).

(** What [_sink] writes to the standard output for one record. *)
Definition _sink
  (dumps : (pyval -> string) -> list (string * EntryVal) -> string)
  (project_id : option string) (record : LoguruRecord) : string :=
  _gcp_formatter dumps project_id record ++ String (ascii_of_nat 10) "".

End GCPAdapter.

(** ** interceptor.py: class InterceptHandler *)

Module InterceptHandler.

(** A [logging.LogRecord].  [getMessage] is the outcome of
    [record.getMessage()]: the text of [msg % args], or the exception that
    formatting raises when the arguments do not fit the message. *)
Record LogRecord : Type := {
  levelname : string;
  levelno : Z;
  name : string;
  exc_info : option string;
  getMessage : Result string
}.

(** The walk up the call stack: [frames] lists the file of each frame from
    [logging.currentframe()] outwards, [logging_file] is [logging.__file__]. *)
Fixpoint caller_depth (logging_file : string) (frames : list string)
  (depth : nat) : nat :=
  match frames with
  | [] => depth
  | co_filename :: f_back =>
      if co_filename =? logging_file
      then caller_depth logging_file f_back (S depth)
      else depth
  end.

(** The level handed to loguru: the registered name, or the number when the
    name is unknown to the registry. *)
Definition emit_level (record : LogRecord) : M LevelArg :=
  try_except_ValueError
    (l <- loguru.level (levelname record) ;; ret (LevelName (level_name l)))
    (ret (LevelNo (levelno record))).

Definition emit (logging_file : string) (frames : list string)
  (record : LogRecord) : M unit :=
  level <- emit_level record ;;
  let depth := caller_depth logging_file frames 2 in
  trace_id <- LoggerCore.get_trace_id ;;
  message <- lift (getMessage record) ;;
  loguru.log
    {| call_depth := depth;
       call_exception := exc_info record;
       call_trace_id := trace_id;
       call_name := name record;
       call_level := level;
       call_message := message |}.

End InterceptHandler.

(** ** config.py *)

Module config.

Definition LOG_ENV_VAR : string := "LOG_ENV".
Definition GOOGLE_ENV_VALUE : string := "google".
Definition LOG_LEVEL_VAR : string := "LOG_LEVEL".
Definition PROJECT_ID_VARS : list string :=
  ["GOOGLE_CLOUD_PROJECT"; "GCP_PROJECT_ID"].

Definition default_stdlib_loggers : list string :=
  ["uvicorn"; "uvicorn.access"; "uvicorn.error"; "fastapi"; "sqlalchemy";
   "sqlalchemy.engine"].

Definition configure_logging (adapters : option (list Adapter))
  (intercept_stdlib : bool) (stdlib_loggers : option (list string)) : M unit :=
  LoggerCore.configure adapters ;;
  if negb intercept_stdlib then ret tt
  else
    let stdlib_loggers :=
      match stdlib_loggers with
      | None => default_stdlib_loggers
      | Some given => given
      end in
    for_each stdlib_loggers (fun logger_name =>
      logging.putLogger logger_name
        {| std_handlers := [InterceptHandler]; std_propagate := false |}).

Definition configure_fastapi_logging (adapters : option (list Adapter))
  : M unit :=
  configure_logging adapters true
    (Some ["uvicorn"; "uvicorn.access"; "uvicorn.error"; "fastapi"]).

(** The keyword arguments [configure_logging] accepts besides [adapters];
    [None] is a keyword that was not passed. *)
Record Kwargs : Type := {
  kw_intercept_stdlib : option bool;
  kw_stdlib_loggers : option (list string)
}.

Definition no_kwargs : Kwargs :=
  {| kw_intercept_stdlib := None; kw_stdlib_loggers := None |}.

(** [os.environ], a mapping from names to values. *)
Definition Environ : Type := list (string * string).

(** The loop over [PROJECT_ID_VARS]: [project_id] is the last value read. *)
Fixpoint project_id_loop (environ : Environ) (vars : list string)
  (project_id : option string) : option string :=
  match vars with
  | [] => project_id
  | var :: rest =>
      let project_id := Dict.get var environ in
      if GCPAdapter.option_truthy project_id then project_id
      else project_id_loop environ rest project_id
  end.

(** The list [adapters] built from the environment. *)
Definition env_adapters (py : PyStr) (environ : Environ) : list Adapter :=
  let log_env :=
    py_lower py (py_strip py (Dict.get_default LOG_ENV_VAR "" environ)) in
  let level := Dict.get_default LOG_LEVEL_VAR "INFO" environ in
  let project_id := project_id_loop environ PROJECT_ID_VARS None in
  if log_env =? GOOGLE_ENV_VALUE
  then [GCPAdapter level project_id]
  else [ConsoleAdapter level true].

Definition configure_logging_from_env (py : PyStr) (environ : Environ)
  (kwargs : Kwargs) : M unit :=
  configure_logging (Some (env_adapters py environ))
    (match kw_intercept_stdlib kwargs with Some b => b | None => true end)
    (kw_stdlib_loggers kwargs).

Definition reset_logging : M unit :=
  loguru.remove ;;
  modify (with_configured false) ;;
  modify (with_adapters []) ;;
  logging.basicConfig_force.

End config.

(** ** Vocabulary of the specification *)

(** A default trace identifier: exactly 8 characters, each in [0-9a-f]. *)
Definition is_default_trace_id (t : string) : bool :=
  (String.length t =? 8)%nat && Str.all Str.is_lower_hex t.

(** The fixed severity ordering DEBUG < INFO < WARNING < ERROR < CRITICAL,
    read without regard to letter case, that is on the upper-cased name; a
    name outside it has no rank. *)
Definition severity_rank (py : PyStr) (name : string) : option nat :=
  let n := py_upper py name in
  if n =? "DEBUG" then Some 0%nat
  else if n =? "INFO" then Some 1%nat
  else if n =? "WARNING" then Some 2%nat
  else if n =? "ERROR" then Some 3%nat
  else if n =? "CRITICAL" then Some 4%nat
  else None.

(** [severity_ge a b]: both names are in the ordering and [a] is at least [b]. *)
Definition severity_ge (py : PyStr) (a b : string) : Prop :=
  exists ra rb, severity_rank py a = Some ra /\ severity_rank py b = Some rb
                /\ (rb <= ra)%nat.

Definition severity_lt (py : PyStr) (a b : string) : Prop :=
  exists ra rb, severity_rank py a = Some ra /\ severity_rank py b = Some rb
                /\ (ra < rb)%nat.

(** The adapters of a configuration that admit a record of the given
    severity, each one asked on its own. *)
Definition admitting (py : PyStr) (adapters : list Adapter) (level : string)
  : list Adapter :=
  filter (fun a =>
            match BaseAdapter.should_log py a level with
            | Ok true => true
            | _ => false
            end) adapters.

(** The identifier generated in state [w]: the first eight hexadecimal
    digits of the UUID built from the next sixteen bytes of entropy. *)
Definition next_trace_id (w : World) : string :=
  Str.take 8
    (uuid.hex
       (uuid.UUID_int
          (List.map (urandom_source w) (seq (urandom_pos w) 16)) 4)).

(** ** Sample states and inputs *)

Definition sample_entropy (n : nat) : Init.Byte.byte :=
  match Strings.Byte.of_nat ((n * 73 + 21) mod 256) with
  | Some b => b
  | None => Init.Byte.x00
  end.

(** A process right after the import of the library: loguru still has its
    own handler on the error stream, nothing is configured. *)
Definition fresh_world : World :=
  {| _configured := false;
     _adapters := [];
     _trace_id_var := None;
     loguru_handlers :=
       [ {| handler_id := 0; handler_levelno := 10;
            handler_config :=
              {| cfg_sink := sys_stderr; cfg_format := None;
                 cfg_level := "DEBUG"; cfg_colorize := None;
                 cfg_serialize := None |} |} ];
     loguru_next_id := 1;
     loguru_custom_levels := [];
     loguru_calls := [];
     logging_loggers := [];
     urandom_source := sample_entropy;
     urandom_pos := 0 |}.

(** The same process after [configure([ConsoleAdapter(level="INFO")])]. *)
Definition console_world : World :=
  snd (LoggerCore.configure (Some [ConsoleAdapter "INFO" true]) fresh_world).

(** A record carrying the 8-character identifier of the specification, and
    one carrying a 32-character hexadecimal identifier. *)
Definition short_id_record : GCPAdapter.LoguruRecord :=
  {| GCPAdapter.rec_level_name := "INFO";
     GCPAdapter.rec_message := "Request received";
     GCPAdapter.rec_time_iso := "2026-02-05T21:55:32.123000+00:00";
     GCPAdapter.rec_file_name := "main.py";
     GCPAdapter.rec_line := 42;
     GCPAdapter.rec_function := "handle_request";
     GCPAdapter.rec_extra :=
       [("trace_id", PStr "05556afc"); ("name", PStr "api")] |}.

Definition with_extra (extra : list (string * pyval))
  (r : GCPAdapter.LoguruRecord) : GCPAdapter.LoguruRecord :=
  {| GCPAdapter.rec_level_name := GCPAdapter.rec_level_name r;
     GCPAdapter.rec_message := GCPAdapter.rec_message r;
     GCPAdapter.rec_time_iso := GCPAdapter.rec_time_iso r;
     GCPAdapter.rec_file_name := GCPAdapter.rec_file_name r;
     GCPAdapter.rec_line := GCPAdapter.rec_line r;
     GCPAdapter.rec_function := GCPAdapter.rec_function r;
     GCPAdapter.rec_extra := extra |}.

Definition long_id : string := "0123456789abcdef0123456789abcdef".

Definition long_id_record : GCPAdapter.LoguruRecord :=
  with_extra [("trace_id", PStr long_id); ("name", PStr "api")]
    short_id_record.

(** The short-id record logged with an extra field named after the cloud
    trace key, and a record whose bound trace id is the empty string. *)
Definition spoofed_record : GCPAdapter.LoguruRecord :=
  with_extra
    [("trace_id", PStr "05556afc");
     ("logging.googleapis.com/trace", PStr "projects/other/traces/05556afc")]
    short_id_record.

Definition empty_id_record : GCPAdapter.LoguruRecord :=
  with_extra [("trace_id", PStr ""); ("name", PStr "api")] short_id_record.

(** A standard-library record at a level loguru knows, and one at a custom
    numeric level, for which [logging] reports the name "Level 15". *)
Definition info_record : InterceptHandler.LogRecord :=
  {| InterceptHandler.levelname := "INFO";
     InterceptHandler.levelno := 20;
     InterceptHandler.name := "uvicorn";
     InterceptHandler.exc_info := None;
     InterceptHandler.getMessage := Ok "Test message" |}.

Definition level15_record : InterceptHandler.LogRecord :=
  {| InterceptHandler.levelname := "Level 15";
     InterceptHandler.levelno := 15;
     InterceptHandler.name := "uvicorn";
     InterceptHandler.exc_info := None;
     InterceptHandler.getMessage := Ok "Test message" |}.

(** A record built at the numeric level -1, named "Level -1" by [logging],
    and a record at INFO whose arguments do not fit its message, so that
    [getMessage()] raises [TypeError]. *)
Definition negative_level_record : InterceptHandler.LogRecord :=
  {| InterceptHandler.levelname := "Level -1";
     InterceptHandler.levelno := -1;
     InterceptHandler.name := "uvicorn";
     InterceptHandler.exc_info := None;
     InterceptHandler.getMessage := Ok "Test message" |}.

Definition unformattable_record : InterceptHandler.LogRecord :=
  {| InterceptHandler.levelname := "INFO";
     InterceptHandler.levelno := 20;
     InterceptHandler.name := "uvicorn";
     InterceptHandler.exc_info := None;
     InterceptHandler.getMessage :=
       Raise (TypeError "not all arguments converted during string formatting")
  |}.

(** ** Further vocabulary *)

(** The next [n] bytes [os.urandom] will deliver in state [w]. *)
Definition next_bytes (n : nat) (w : World) : list Init.Byte.byte :=
  List.map (urandom_source w) (seq (urandom_pos w) n).

(** Every adapter of the list names a level of loguru's registry. *)
Definition levels_registered (adapters : list Adapter) (w : World) : bool :=
  forallb
    (fun a =>
       match loguru.find_level (adapter_level a) (loguru.levels w) with
       | Some _ => true
       | None => false
       end)
    adapters.

(** The handlers that adding the sinks of [adapters] one after the other
    creates, the first one under the id [first]. *)
Fixpoint sinks_for (levels : list Level) (first : nat)
  (adapters : list Adapter) : list Handler :=
  match adapters with
  | [] => []
  | a :: rest =>
      match loguru.find_level (adapter_level a) levels with
      | Some l =>
          {| handler_id := first; handler_levelno := level_no l;
             handler_config := get_sink_config a |}
          :: sinks_for levels (S first) rest
      | None => []
      end
  end.

(** The keys every cloud-schema entry starts with. *)
Definition standard_keys : list string :=
  ["severity"; "message"; "timestamp"; "logging.googleapis.com/sourceLocation"].

(** The invariant of the entry under construction: no key twice, and the
    four standard keys first. *)
Definition entry_ok {V : Type} (e : list (string * V)) : Prop :=
  NoDup (List.map fst e) /\ firstn 4 (List.map fst e) = standard_keys.

(** The state once loguru has accepted the call [c]: the call joins the
    accepted ones, unless no handler is installed. *)
Definition accepted (c : LogCall) (w : World) : World :=
  match loguru_handlers w with
  | [] => w
  | _ :: _ => with_calls (loguru_calls w ++ [c]) w
  end.

(** * Properties *)

(** ** Strings *)

Lemma length_append (a b : string) :
  String.length (a ++ b) = (String.length a + String.length b)%nat.
Proof.
  induction a as [|c a IH]; simpl; [reflexivity | now rewrite IH].
Qed.

Lemma all_append (p : ascii -> bool) (a b : string) :
  Str.all p (a ++ b) = Str.all p a && Str.all p b.
Proof.
  induction a as [|c a IH]; simpl; [reflexivity|].
  now rewrite IH, andb_assoc.
Qed.

Lemma length_take (n : nat) (s : string) :
  (n <= String.length s)%nat -> String.length (Str.take n s) = n.
Proof.
  unfold Str.take. revert s.
  induction n as [|n IH]; intros s Hn.
  - destruct s; reflexivity.
  - destruct s as [|c s]; simpl in *; [lia|].
    rewrite IH; [reflexivity | lia].
Qed.

Lemma all_take (p : ascii -> bool) (n : nat) (s : string) :
  Str.all p s = true -> Str.all p (Str.take n s) = true.
Proof.
  unfold Str.take. revert s.
  induction n as [|n IH]; intros s Hs.
  - destruct s; reflexivity.
  - destruct s as [|c s]; simpl in *; [reflexivity|].
    apply andb_true_iff in Hs as [Hc Hs].
    now rewrite Hc, IH.
Qed.

Lemma nonempty_of_length (s : string) (n : nat) :
  String.length s = S n -> Str.nonempty s = true.
Proof. destruct s; simpl; [discriminate | reflexivity]. Qed.

Lemma nonempty_iff (s : string) : Str.nonempty s = true <-> s <> "".
Proof.
  unfold Str.nonempty. rewrite negb_true_iff. apply String.eqb_neq.
Qed.

(** ** uuid4: shape of the hexadecimal form *)

Lemma hex_char_is_lower_hex (d : Z) :
  (0 <= d < 16)%Z -> Str.is_lower_hex (uuid.hex_char d) = true.
Proof.
  intros Hd.
  assert (Hcases : exists n, (n < 16)%nat /\ d = Z.of_nat n).
  { exists (Z.to_nat d). split; lia. }
  destruct Hcases as [n [Hn ->]].
  do 16 (destruct n as [|n]; [reflexivity|]). lia.
Qed.

Lemma hex_digits_length (n : nat) (z : Z) :
  String.length (uuid.hex_digits n z) = n.
Proof.
  revert z. induction n as [|n IH]; intros z; simpl; [reflexivity|].
  rewrite length_append, IH. simpl. lia.
Qed.

Lemma hex_digits_all_hex (n : nat) (z : Z) :
  Str.all Str.is_lower_hex (uuid.hex_digits n z) = true.
Proof.
  revert z. induction n as [|n IH]; intros z; simpl; [reflexivity|].
  rewrite all_append, IH. simpl.
  rewrite hex_char_is_lower_hex; [reflexivity|].
  apply Z.mod_pos_bound. lia.
Qed.

Lemma take8_hex_is_default_trace_id (i : Z) :
  is_default_trace_id (Str.take 8 (uuid.hex i)) = true.
Proof.
  unfold is_default_trace_id, uuid.hex.
  rewrite length_take by (rewrite hex_digits_length; lia).
  rewrite all_take by apply hex_digits_all_hex.
  reflexivity.
Qed.

Lemma default_trace_id_nonempty (t : string) :
  is_default_trace_id t = true -> Str.nonempty t = true.
Proof.
  unfold is_default_trace_id. intros H.
  apply andb_true_iff in H as [Hlen _].
  apply Nat.eqb_eq in Hlen. now apply nonempty_of_length with (n := 7%nat).
Qed.

Lemma lor_below (n a b : Z) :
  (0 < n -> 0 <= a < 2 ^ n -> 0 <= b < 2 ^ n -> 0 <= Z.lor a b < 2 ^ n)%Z.
Proof.
  intros Hn Ha Hb.
  assert (H0 : (0 <= Z.lor a b)%Z) by (apply Z.lor_nonneg; lia).
  split; [exact H0|].
  destruct (Z.eq_dec (Z.lor a b) 0) as [-> | Hnz]; [lia|].
  apply Z.log2_lt_pow2; [lia|].
  rewrite Z.log2_lor by lia.
  assert (Hl : forall x, (0 <= x < 2 ^ n -> Z.log2 x < n)%Z).
  { intros x Hx. destruct (Z.eq_dec x 0) as [-> | Hx0]; [simpl; lia|].
    apply Z.log2_lt_pow2; lia. }
  pose proof (Hl a Ha). pose proof (Hl b Hb). lia.
Qed.

Lemma clear_bits_below (n a m : Z) :
  (0 <= a < 2 ^ n -> 0 <= Z.land a (Z.lnot m) < 2 ^ n)%Z.
Proof.
  intros Ha.
  assert (H0 : (0 <= Z.land a (Z.lnot m))%Z) by (apply Z.land_nonneg; lia).
  assert (H1 : (0 <= Z.land a m)%Z) by (apply Z.land_nonneg; lia).
  pose proof (Z.sub_land_same_l a m). lia.
Qed.

Lemma int_from_bytes_below (bs : list Init.Byte.byte) :
  (0 <= uuid.int_from_bytes bs < 256 ^ Z.of_nat (List.length bs))%Z.
Proof.
  unfold uuid.int_from_bytes.
  assert (H : forall (l : list Init.Byte.byte) (acc k : Z),
             (0 <= k -> 0 <= acc < 256 ^ k ->
              0 <= fold_left
                     (fun acc b => acc * 256 + Z.of_N (Strings.Byte.to_N b))
                     l acc
                < 256 ^ (k + Z.of_nat (List.length l)))%Z).
  { induction l as [|b l IH]; intros acc k Hk Hacc.
    - simpl. now rewrite Z.add_0_r.
    - cbn [fold_left List.length].
      replace (k + Z.of_nat (S (List.length l)))%Z
        with ((k + 1) + Z.of_nat (List.length l))%Z by lia.
      apply IH; [lia|].
      pose proof (Strings.Byte.to_N_bounded b) as Hb.
      rewrite Z.pow_add_r by lia. lia. }
  apply (H bs 0%Z 0%Z); simpl; lia.
Qed.

(** A version-4 UUID built from 16 bytes is a 128-bit number, so that its
    ['%032x'] form has exactly the 32 digits of [uuid.hex]. *)
Lemma UUID_int_128_bits (bs : list Init.Byte.byte) :
  List.length bs = 16%nat -> (0 <= uuid.UUID_int bs 4 < 2 ^ 128)%Z.
Proof.
  intros Hlen. unfold uuid.UUID_int.
  pose proof (int_from_bytes_below bs) as Hb. rewrite Hlen in Hb.
  change (256 ^ Z.of_nat 16)%Z with (2 ^ 128)%Z in Hb.
  apply lor_below; [lia| |vm_compute; split; [discriminate|reflexivity]].
  apply clear_bits_below.
  apply lor_below; [lia| |vm_compute; split; [discriminate|reflexivity]].
  now apply clear_bits_below.
Qed.

(** ** Trace context *)

(** C1 (as amended): for every non-empty string [id], [set_trace_id(id)]
    followed by [get_trace_id()] in the same context returns exactly [id],
    whatever its format, and leaves [id] installed. *)
Theorem set_then_get_trace_id (id : string) (w : World) :
  id <> "" ->
  (LoggerCore.set_trace_id id ;; LoggerCore.get_trace_id) w
  = (Ok id, with_trace_id_var (Some id) w).
Proof.
  intros Hid. apply nonempty_iff in Hid.
  unfold LoggerCore.set_trace_id, LoggerCore.get_trace_id, trace_id_var_set,
    trace_id_var_get, bind, modify, gets, ret. simpl.
  now rewrite Hid.
Qed.

Lemma set_then_get_trace_id_witness :
  "req-0001" <> ""
  /\ (LoggerCore.set_trace_id "req-0001" ;; LoggerCore.get_trace_id) fresh_world
     = (Ok "req-0001", with_trace_id_var (Some "req-0001") fresh_world).
Proof.
  split; [discriminate|].
  apply (set_then_get_trace_id "req-0001" fresh_world). discriminate.
Defined.

(** C1 (as stated) fails at the empty string: after [set_trace_id("")],
    [get_trace_id()] does not return [""] but a generated identifier. *)
Lemma set_empty_then_get_generates :
  fst ((LoggerCore.set_trace_id "" ;; LoggerCore.get_trace_id) fresh_world)
  = Ok "155ea7f0"
  /\ Ok "155ea7f0" <> Ok "".
Proof. split; [vm_compute; reflexivity | discriminate]. Qed.

(** C4: in a context whose slot is absent or empty, [get_trace_id()] draws
    fresh entropy, returns an identifier of exactly 8 characters of [0-9a-f],
    installs it, and an immediately repeated call returns the same value
    without drawing again; [reset_trace_id()] installs such a freshly
    generated identifier from any state. *)
Theorem get_trace_id_generates_default (w : World) :
  (_trace_id_var w = None \/ _trace_id_var w = Some "") ->
  let t := next_trace_id w in
  let w' := with_trace_id_var (Some t) (with_urandom_pos (urandom_pos w + 16) w) in
  LoggerCore.get_trace_id w = (Ok t, w')
  /\ is_default_trace_id t = true
  /\ _trace_id_var w' = Some t
  /\ LoggerCore.get_trace_id w' = (Ok t, w')
  /\ (forall v : World,
        let u := next_trace_id v in
        LoggerCore.reset_trace_id v
        = (Ok tt, with_trace_id_var (Some u)
                    (with_urandom_pos (urandom_pos v + 16) v))
        /\ is_default_trace_id u = true).
Proof.
  intros Hslot t w'.
  assert (Ht : is_default_trace_id t = true)
    by apply take8_hex_is_default_trace_id.
  assert (Hget : trace_id_var_get w = (Ok "", w)).
  { unfold trace_id_var_get, gets. now destruct Hslot as [-> | ->]. }
  split; [|split; [exact Ht|split; [reflexivity|split]]].
  - unfold LoggerCore.get_trace_id, bind. rewrite Hget. reflexivity.
  - unfold LoggerCore.get_trace_id, bind, trace_id_var_get, gets.
    subst w'. cbn [_trace_id_var with_trace_id_var].
    now rewrite (default_trace_id_nonempty t Ht).
  - intros v u. split; [reflexivity|].
    apply take8_hex_is_default_trace_id.
Qed.

Lemma get_trace_id_generates_default_witness :
  (_trace_id_var fresh_world = None \/ _trace_id_var fresh_world = Some "")
  /\ fst (LoggerCore.get_trace_id fresh_world) = Ok "155ea7f0"
  /\ is_default_trace_id (next_trace_id fresh_world) = true.
Proof.
  pose proof (get_trace_id_generates_default fresh_world (or_introl eq_refl))
    as [Hget [Hdef _]].
  split; [left; reflexivity|]. split; [|exact Hdef].
  rewrite Hget. vm_compute. reflexivity.
Defined.

(** ** Logger Core: configure and reset *)

Lemma configure_when_configured (adapters : option (list Adapter)) (w : World) :
  _configured w = true -> LoggerCore.configure adapters w = (Ok tt, w).
Proof.
  intros H. unfold LoggerCore.configure, bind, gets. now rewrite H.
Qed.

Lemma configure_ok_is_configured (adapters : option (list Adapter))
  (w w1 : World) :
  LoggerCore.configure adapters w = (Ok tt, w1) -> _configured w1 = true.
Proof.
  unfold LoggerCore.configure, loguru.remove, bind, gets, modify.
  destruct (_configured w) eqn:E.
  - intros H. inversion H. now subst.
  - cbn [_adapters with_adapters with_handlers].
    match goal with
    | |- context [for_each ?l ?f ?v] => destruct (for_each l f v) as [[[]|e] w2]
    end; intros H; inversion H; reflexivity.
Qed.

(** C3: in a configured state, [configure(a)] is a silent no-op for every
    [a] (absent, empty or not): it returns normally and leaves the whole
    state, hence the adapter list and the installed sinks, as it was.  In
    particular a call that follows a completed [configure] keeps the adapters
    and sinks of that first call. *)
Theorem configure_is_idempotent (w : World) (a : option (list Adapter)) :
  (_configured w = true ->
     LoggerCore.configure a w = (Ok tt, w))
  /\ (forall (first : option (list Adapter)) (w0 : World),
        LoggerCore.configure first w0 = (Ok tt, w) ->
        LoggerCore.configure a w = (Ok tt, w)
        /\ _adapters (snd (LoggerCore.configure a w)) = _adapters w
        /\ loguru_handlers (snd (LoggerCore.configure a w)) = loguru_handlers w).
Proof.
  split.
  - apply configure_when_configured.
  - intros first w0 Hfirst.
    apply configure_ok_is_configured in Hfirst.
    rewrite (configure_when_configured a w Hfirst). auto.
Qed.

Lemma configure_is_idempotent_witness :
  _configured console_world = true
  /\ LoggerCore.configure (Some [ConsoleAdapter "INFO" true]) fresh_world
     = (Ok tt, console_world)
  /\ LoggerCore.configure (Some [JSONAdapter "DEBUG"]) console_world
     = (Ok tt, console_world)
  /\ LoggerCore.configure None console_world = (Ok tt, console_world)
  /\ _adapters console_world = [ConsoleAdapter "INFO" true].
Proof.
  assert (Hfirst : LoggerCore.configure (Some [ConsoleAdapter "INFO" true])
                     fresh_world = (Ok tt, console_world))
    by (vm_compute; reflexivity).
  split; [vm_compute; reflexivity|]. split; [exact Hfirst|].
  split; [|split; [|vm_compute; reflexivity]].
  - apply (proj1 (configure_is_idempotent console_world
                    (Some [JSONAdapter "DEBUG"]))).
    vm_compute. reflexivity.
  - apply (proj2 (configure_is_idempotent console_world None)
             (Some [ConsoleAdapter "INFO" true]) fresh_world Hfirst).
Defined.

(** C7: from any state, [reset_logging()] returns normally into a state in
    which [is_configured()] is false, [get_adapters()] is the empty list and
    no loguru handler is left. *)
Theorem reset_logging_unconfigures (w : World) :
  exists w' : World,
    config.reset_logging w = (Ok tt, w')
    /\ LoggerCore.is_configured w' = (Ok false, w')
    /\ LoggerCore.get_adapters w' = (Ok [], w')
    /\ loguru_handlers w' = [].
Proof.
  eexists. split; [reflexivity|]. repeat split.
Qed.

(** C9: on an unconfigured core, [configure(adapters=[])] returns normally
    and leaves the core configured with no adapter and no sink, so that no
    handler receives a record of any severity; the single default Console
    adapter (and its sink) is installed when the argument is [None]. *)
Theorem configure_empty_list (w : World) :
  _configured w = false ->
  let w' := with_configured true
              (with_handlers [] (loguru_next_id w) (with_adapters [] w)) in
  LoggerCore.configure (Some []) w = (Ok tt, w')
  /\ LoggerCore.is_configured w' = (Ok true, w')
  /\ LoggerCore.get_adapters w' = (Ok [], w')
  /\ loguru_handlers w' = []
  /\ (forall no : Z, loguru.recipients no w' = [])
  /\ (exists w'' : World,
        LoggerCore.configure None w = (Ok tt, w'')
        /\ _configured w'' = true
        /\ _adapters w'' = [ConsoleAdapter_default]
        /\ List.map handler_config (loguru_handlers w'')
           = [get_sink_config ConsoleAdapter_default]).
Proof.
  intros H w'.
  split.
  { unfold LoggerCore.configure, bind, gets. now rewrite H. }
  do 4 (split; [reflexivity|]).
  eexists. split.
  { unfold LoggerCore.configure, bind, gets. rewrite H. reflexivity. }
  repeat split.
Qed.

Lemma configure_empty_list_witness :
  _configured fresh_world = false
  /\ fst (LoggerCore.configure (Some []) fresh_world) = Ok tt
  /\ loguru_handlers (snd (LoggerCore.configure (Some []) fresh_world)) = [].
Proof.
  split; [reflexivity|].
  destruct (configure_empty_list fresh_world eq_refl) as [Hrun _].
  rewrite Hrun. split; reflexivity.
Defined.

(** ** The string methods on ASCII text *)

Lemma py_ascii_agrees : agrees_on_ascii py_ascii.
Proof. intros s _. repeat split. Qed.

Lemma ascii_is_not_lead_byte (n : nat) (c : ascii) :
  (128 <= n)%nat -> (Str.code c <? 128)%nat = true ->
  (Str.code c =? n)%nat = false.
Proof.
  intros Hn Hc. apply Nat.ltb_lt in Hc. apply Nat.eqb_neq. lia.
Qed.

Lemma replace_dotless_i_ascii (s : string) :
  ascii_only s = true -> Str.replace dotless_i "I" s = s.
Proof.
  unfold Str.replace, ascii_only.
  induction s as [|c s IH]; intros H; [reflexivity|].
  cbn [Str.all] in H. apply andb_true_iff in H as [Hc Hs].
  cbn [Str.replace_from dotless_i prefix].
  destruct (ascii_dec (ascii_of_nat 196) c) as [<- | Hne];
    [discriminate Hc|].
  now rewrite IH.
Qed.

Lemma lstrip_ascii_only (s : string) :
  ascii_only s = true -> ascii_only (Str.lstrip s) = true.
Proof.
  unfold ascii_only. induction s as [|c s IH]; intros H; [reflexivity|].
  cbn [Str.lstrip]. destruct (Str.isspace c); [|exact H].
  cbn [Str.all] in H. apply andb_true_iff in H as [_ Hs]. now apply IH.
Qed.

Lemma lstrip_wide_ascii (s : string) :
  ascii_only s = true -> lstrip_wide s = Str.lstrip s.
Proof.
  unfold ascii_only. induction s as [|c s IH]; intros H; [reflexivity|].
  cbn [Str.all] in H. apply andb_true_iff in H as [Hc Hs].
  cbn [lstrip_wide Str.lstrip].
  destruct (Str.isspace c); [now apply IH|].
  rewrite (ascii_is_not_lead_byte 194 c) by (lia || exact Hc).
  now destruct s.
Qed.

Lemma rstrip_wide_ascii (s : string) :
  ascii_only s = true -> rstrip_wide s = Str.rstrip s.
Proof.
  unfold ascii_only. induction s as [|c s IH]; intros H; [reflexivity|].
  cbn [Str.all] in H. apply andb_true_iff in H as [Hc Hs].
  cbn [rstrip_wide Str.rstrip]. rewrite (IH Hs).
  rewrite (ascii_is_not_lead_byte 194 c) by (lia || exact Hc).
  reflexivity.
Qed.

Lemma py_sample_agrees : agrees_on_ascii py_sample.
Proof.
  intros s Hs. cbn [py_sample py_upper py_lower py_strip].
  split; [|split; [reflexivity|]].
  - unfold upper_wide. now rewrite replace_dotless_i_ascii.
  - rewrite lstrip_wide_ascii by exact Hs.
    now rewrite rstrip_wide_ascii by (now apply lstrip_ascii_only).
Qed.

(** ** Adapter thresholds *)

Lemma position_levels (py : PyStr) (s : string) :
  BaseAdapter.position (py_upper py s) BaseAdapter.levels
  = severity_rank py s.
Proof.
  unfold severity_rank, BaseAdapter.levels. cbn [BaseAdapter.position].
  rewrite (String.eqb_sym "DEBUG"), (String.eqb_sym "INFO"),
    (String.eqb_sym "WARNING"), (String.eqb_sym "ERROR"),
    (String.eqb_sym "CRITICAL").
  destruct (py_upper py s =? "DEBUG"); [reflexivity|].
  destruct (py_upper py s =? "INFO"); [reflexivity|].
  destruct (py_upper py s =? "WARNING"); [reflexivity|].
  destruct (py_upper py s =? "ERROR"); [reflexivity|].
  destruct (py_upper py s =? "CRITICAL"); reflexivity.
Qed.

Lemma position_some_iff_In (x : string) (l : list string) :
  (exists i, BaseAdapter.position x l = Some i) <-> In x l.
Proof.
  induction l as [|y l IH]; simpl.
  - split; [intros [i Hi]; discriminate | intros []].
  - destruct (y =? x) eqn:E.
    + apply String.eqb_eq in E. split; [now left | now exists 0%nat].
    + apply String.eqb_neq in E. rewrite <- IH. split.
      * intros [i Hi]. right.
        destruct (BaseAdapter.position x l) as [j|]; [now exists j | discriminate].
      * intros [Hyx | [j Hj]]; [contradiction|]. rewrite Hj. now exists (S j).
Qed.

(** [should_log] in terms of the ranks of the two names. *)
Lemma should_log_by_rank (py : PyStr) (self : Adapter) (level : string) :
  BaseAdapter.should_log py self level =
  match severity_rank py (adapter_level self), severity_rank py level with
  | Some m, Some r => Ok (m <=? r)%nat
  | Some _, None => Raise (ValueError (py_upper py level))
  | None, _ => Raise (ValueError (py_upper py (adapter_level self)))
  end.
Proof.
  unfold BaseAdapter.should_log, BaseAdapter.index.
  rewrite !position_levels.
  destruct (severity_rank py (adapter_level self));
    destruct (severity_rank py level); reflexivity.
Qed.

(** C5: whatever the interpreter's [str.upper] does beyond ASCII,
    [should_log(level)] returns true exactly when the record's severity is
    at least the adapter's minimum under DEBUG < INFO < WARNING < ERROR <
    CRITICAL, and false exactly when it is below it, the two names being
    read as [upper()] gives them (a name outside the ordering compares with
    nothing, and for it neither value is returned); whether an adapter of a
    configuration admits a record depends on its own minimum alone, whatever
    the other adapters of the configuration are. *)
Theorem should_log_iff_severity_ge (py : PyStr) (self : Adapter)
  (level : string) :
  (BaseAdapter.should_log py self level = Ok true
   <-> severity_ge py level (adapter_level self))
  /\ (BaseAdapter.should_log py self level = Ok false
      <-> severity_lt py level (adapter_level self))
  /\ (forall adapters : list Adapter,
        In self (admitting py adapters level)
        <-> In self adapters /\ severity_ge py level (adapter_level self)).
Proof.
  assert (Hge : BaseAdapter.should_log py self level = Ok true
                <-> severity_ge py level (adapter_level self)).
  { rewrite should_log_by_rank. unfold severity_ge.
    destruct (severity_rank py (adapter_level self)) as [m|];
      destruct (severity_rank py level) as [r|]; split;
      try discriminate;
      try (intros [ra [rb [H1 [H2 _]]]]; discriminate).
    - intros H. exists r, m. repeat split.
      injection H as H. now apply Nat.leb_le.
    - intros [ra [rb [H1 [H2 Hle]]]].
      injection H1 as <-. injection H2 as <-.
      f_equal. now apply Nat.leb_le. }
  split; [exact Hge|]. split.
  - rewrite should_log_by_rank. unfold severity_lt.
    destruct (severity_rank py (adapter_level self)) as [m|];
      destruct (severity_rank py level) as [r|]; split;
      try discriminate;
      try (intros [ra [rb [H1 [H2 _]]]]; discriminate).
    + intros H. exists r, m. repeat split.
      injection H as H. apply Nat.leb_gt in H. lia.
    + intros [ra [rb [H1 [H2 Hlt]]]].
      injection H1 as <-. injection H2 as <-.
      f_equal. apply Nat.leb_gt. lia.
  - intros adapters. unfold admitting. rewrite filter_In, <- Hge.
    destruct (BaseAdapter.should_log py self level) as [[|]|e];
      intuition discriminate.
Qed.

Lemma should_log_iff_severity_ge_witness :
  BaseAdapter.should_log py_ascii (ConsoleAdapter "warning" true) "ERROR"
  = Ok true
  /\ BaseAdapter.should_log py_ascii (ConsoleAdapter "warning" true) "Debug"
     = Ok false
  /\ admitting py_ascii
       [ConsoleAdapter "WARNING" true; JSONAdapter "DEBUG"] "DEBUG"
     = [JSONAdapter "DEBUG"]
  /\ BaseAdapter.should_log py_sample (ConsoleAdapter "debug" true)
       (dotless_i ++ "nfo")
     = Ok true.
Proof.
  split; [|split; [|split; [reflexivity|]]].
  - apply (proj1 (should_log_iff_severity_ge py_ascii
                    (ConsoleAdapter "warning" true) "ERROR")).
    exists 3%nat, 2%nat. repeat split. lia.
  - apply (proj1 (proj2 (should_log_iff_severity_ge py_ascii
                           (ConsoleAdapter "warning" true) "Debug"))).
    exists 0%nat, 2%nat. repeat split. lia.
  - apply (proj1 (should_log_iff_severity_ge py_sample
                    (ConsoleAdapter "debug" true) (dotless_i ++ "nfo"))).
    exists 1%nat, 0%nat. repeat split. lia.
Defined.

(** C10: [should_log(level)] returns a boolean exactly when the adapter's
    level and the argument are both, letter case aside (that is, once
    [upper()] is applied), among DEBUG, INFO, WARNING, ERROR and CRITICAL;
    for every other pair the index lookup raises [ValueError] and nothing is
    returned.  TRACE and SUCCESS, which the cloud formatter maps to DEBUG and
    INFO, are such names. *)
Theorem should_log_raises_outside_five_names (py : PyStr) (self : Adapter)
  (level : string) :
  ((exists b : bool, BaseAdapter.should_log py self level = Ok b)
   <-> In (py_upper py (adapter_level self)) BaseAdapter.levels
       /\ In (py_upper py level) BaseAdapter.levels)
  /\ ((exists x : string,
         BaseAdapter.should_log py self level = Raise (ValueError x))
      <-> ~ (In (py_upper py (adapter_level self)) BaseAdapter.levels
             /\ In (py_upper py level) BaseAdapter.levels))
  /\ (agrees_on_ascii py ->
      (exists x, BaseAdapter.should_log py self "TRACE"
                 = Raise (ValueError x))
      /\ (exists x, BaseAdapter.should_log py self "SUCCESS"
                    = Raise (ValueError x)))
  /\ Dict.get "TRACE" GCPAdapter.level_map = Some "DEBUG"
  /\ Dict.get "SUCCESS" GCPAdapter.level_map = Some "INFO".
Proof.
  rewrite <- !position_some_iff_In, !position_levels.
  split; [|split]; [| |split; [|split; reflexivity]].
  - rewrite should_log_by_rank.
    destruct (severity_rank py (adapter_level self)) as [m|];
      destruct (severity_rank py level) as [r|]; split;
      try (intros [b Hb]; discriminate);
      try (intros [[i Hi] [j Hj]]; discriminate).
    + intros _. split; eauto.
    + intros _. eauto.
  - rewrite should_log_by_rank.
    destruct (severity_rank py (adapter_level self)) as [m|];
      destruct (severity_rank py level) as [r|]; split;
      try (intros [x Hx]; discriminate).
    + intros Hn. exfalso. apply Hn. split; eauto.
    + intros _ [_ [j Hj]]. discriminate.
    + intros _. eauto.
    + intros _ [[i Hi] _]. discriminate.
    + intros _. eauto.
    + intros _ [[i Hi] _]. discriminate.
    + intros _. eauto.
  - intros Hpy.
    assert (Htrace : severity_rank py "TRACE" = None).
    { unfold severity_rank.
      now rewrite (proj1 (Hpy "TRACE" eq_refl)). }
    assert (Hsuccess : severity_rank py "SUCCESS" = None).
    { unfold severity_rank.
      now rewrite (proj1 (Hpy "SUCCESS" eq_refl)). }
    rewrite !should_log_by_rank, Htrace, Hsuccess.
    destruct (severity_rank py (adapter_level self)); eauto.
Qed.

Lemma should_log_raises_outside_five_names_witness :
  agrees_on_ascii py_sample
  /\ BaseAdapter.should_log py_sample (GCPAdapter "INFO" None) "SUCCESS"
     = Raise (ValueError "SUCCESS")
  /\ BaseAdapter.should_log py_ascii (GCPAdapter "TRACE" None) "ERROR"
     = Raise (ValueError "TRACE")
  /\ (exists x, BaseAdapter.should_log py_sample (GCPAdapter "INFO" None)
                  "TRACE" = Raise (ValueError x))
  /\ (exists b, BaseAdapter.should_log py_ascii (GCPAdapter "info" None)
                  "Error" = Ok b)
  /\ (exists b, BaseAdapter.should_log py_sample
                  (GCPAdapter (dotless_i ++ "nfo") None) "Error" = Ok b).
Proof.
  split; [exact py_sample_agrees|].
  split; [reflexivity|]. split; [reflexivity|]. split; [|split].
  - apply (proj1 (proj2 (proj2 (should_log_raises_outside_five_names
                                  py_sample (GCPAdapter "INFO" None) "")))
             py_sample_agrees).
  - apply (proj1 (should_log_raises_outside_five_names py_ascii
                    (GCPAdapter "info" None) "Error")).
    split; cbn; tauto.
  - apply (proj1 (should_log_raises_outside_five_names py_sample
                    (GCPAdapter (dotless_i ++ "nfo") None) "Error")).
    split; cbn; tauto.
Defined.

(** ** Environment-driven configuration *)

Lemma for_each_preserves {A B : Type} (f : World -> B) (body : A -> M unit) :
  (forall x w, f (snd (body x w)) = f w) ->
  forall xs w, f (snd (for_each xs body w)) = f w.
Proof.
  intros Hbody xs. induction xs as [|x xs IH]; intros w; [reflexivity|].
  cbn [for_each]. unfold bind.
  pose proof (Hbody x w) as Hx.
  destruct (body x w) as [[[]|e] w1]; cbn [snd] in *.
  - now rewrite IH.
  - exact Hx.
Qed.

Lemma add_keeps_adapters (cfg : SinkConfig) (w : World) :
  _adapters (snd (loguru.add cfg w)) = _adapters w.
Proof.
  unfold loguru.add, loguru.level, bind.
  destruct (loguru.find_level (cfg_level cfg) _); reflexivity.
Qed.

Lemma bind_preserves {A B C : Type} (f : World -> C) (m : M A) (k : A -> M B) :
  (forall w, f (snd (m w)) = f w) ->
  (forall a w, f (snd (k a w)) = f w) ->
  forall w, f (snd (bind m k w)) = f w.
Proof.
  intros Hm Hk w. unfold bind.
  pose proof (Hm w) as Hw.
  destruct (m w) as [[a|e] w1]; cbn [snd] in *.
  - now rewrite Hk.
  - exact Hw.
Qed.

(** Statements that leave a component [f] of the state alone. *)
Ltac frame :=
  repeat first
    [ apply add_keeps_adapters
    | apply for_each_preserves
    | apply bind_preserves
    | progress intros
    | reflexivity ].

Lemma configure_unconfigured (adapters : option (list Adapter)) (w : World) :
  _configured w = false ->
  LoggerCore.configure adapters w
  = (loguru.remove ;;
     (installed <- gets _adapters ;;
      for_each installed (fun adapter =>
        _ <- loguru.add (get_sink_config adapter) ;; ret tt)) ;;
     modify (with_configured true))
      (with_adapters
         match adapters with
         | None => [ConsoleAdapter_default]
         | Some given => given
         end w).
Proof.
  intros H. unfold LoggerCore.configure.
  unfold bind at 1, gets at 1. rewrite H. reflexivity.
Qed.

Lemma configure_installs (adapters : option (list Adapter)) (w : World) :
  _configured w = false ->
  _adapters (snd (LoggerCore.configure adapters w))
  = match adapters with
    | None => [ConsoleAdapter_default]
    | Some given => given
    end.
Proof.
  intros H. rewrite (configure_unconfigured adapters w H).
  match goal with
  | |- _adapters (snd (?m ?v)) = ?a => change a with (_adapters v)
  end.
  frame.
Qed.

Lemma intercept_keeps_adapters (names : list string) (w : World) :
  _adapters
    (snd (for_each names (fun logger_name =>
            logging.putLogger logger_name
              {| std_handlers := [InterceptHandler]; std_propagate := false |})
            w))
  = _adapters w.
Proof. frame. Qed.

(** C6: whatever the interpreter's [strip] and [lower] do beyond ASCII,
    [configure_logging_from_env] builds the cloud-schema adapter exactly
    when [LOG_ENV], stripped and lowercased, is ["google"], and the console
    adapter otherwise; the level is [LOG_LEVEL], or INFO when it is unset;
    the project id is [GOOGLE_CLOUD_PROJECT] when that is set and non-empty,
    and [GCP_PROJECT_ID] otherwise.  That list is what is handed to
    [configure_logging], and what an unconfigured core ends up holding. *)
Theorem env_selects_adapter (py : PyStr) (environ : config.Environ) :
  let log_env :=
    py_lower py (py_strip py (Dict.get_default "LOG_ENV" "" environ)) in
  let level :=
    match Dict.get "LOG_LEVEL" environ with Some l => l | None => "INFO" end in
  let project_id :=
    match Dict.get "GOOGLE_CLOUD_PROJECT" environ with
    | Some p => if Str.nonempty p then Some p
                else Dict.get "GCP_PROJECT_ID" environ
    | None => Dict.get "GCP_PROJECT_ID" environ
    end in
  (log_env = "google" ->
     config.env_adapters py environ = [GCPAdapter level project_id])
  /\ (log_env <> "google" ->
      config.env_adapters py environ = [ConsoleAdapter level true])
  /\ (forall (kwargs : config.Kwargs) (w : World),
        _configured w = false ->
        _adapters
          (snd (config.configure_logging_from_env py environ kwargs w))
        = config.env_adapters py environ).
Proof.
  intros log_env level project_id.
  assert (Hpid : config.project_id_loop environ config.PROJECT_ID_VARS None
                 = project_id).
  { subst project_id. unfold config.PROJECT_ID_VARS.
    cbn [config.project_id_loop]. unfold GCPAdapter.option_truthy.
    destruct (Dict.get "GOOGLE_CLOUD_PROJECT" environ) as [p|].
    - destruct (Str.nonempty p); [reflexivity|].
      destruct (Dict.get "GCP_PROJECT_ID" environ) as [q|]; [|reflexivity].
      destruct (Str.nonempty q); reflexivity.
    - destruct (Dict.get "GCP_PROJECT_ID" environ) as [q|]; [|reflexivity].
      destruct (Str.nonempty q); reflexivity. }
  split; [|split].
  - intros Hg. unfold config.env_adapters. rewrite Hpid.
    change (py_lower py (py_strip py
              (Dict.get_default config.LOG_ENV_VAR "" environ)))
      with log_env.
    rewrite Hg. reflexivity.
  - intros Hg. unfold config.env_adapters.
    change (py_lower py (py_strip py
              (Dict.get_default config.LOG_ENV_VAR "" environ)))
      with log_env.
    apply String.eqb_neq in Hg. unfold config.GOOGLE_ENV_VALUE.
    now rewrite Hg.
  - intros kwargs w Hw.
    unfold config.configure_logging_from_env, config.configure_logging.
    unfold bind at 1.
    pose proof (configure_installs (Some (config.env_adapters py environ))
                  w Hw) as Hinst.
    destruct (LoggerCore.configure (Some (config.env_adapters py environ)) w)
      as [[[]|e] w1]; cbn [snd] in *; [|exact Hinst].
    destruct (negb _); [exact Hinst|].
    now rewrite intercept_keeps_adapters.
Qed.

Lemma env_selects_adapter_witness :
  config.env_adapters py_ascii
    [("LOG_ENV", " Google "); ("GOOGLE_CLOUD_PROJECT", "");
     ("GCP_PROJECT_ID", "my-project")]
  = [GCPAdapter "INFO" (Some "my-project")]
  /\ config.env_adapters py_ascii [("LOG_LEVEL", "DEBUG")]
     = [ConsoleAdapter "DEBUG" true]
  /\ config.env_adapters py_sample [("LOG_ENV", nbsp ++ "google ")]
     = [GCPAdapter "INFO" None]
  /\ config.env_adapters py_ascii [("LOG_ENV", nbsp ++ "google ")]
     = [ConsoleAdapter "INFO" true].
Proof.
  split; [|split; [|split]].
  - apply (proj1 (env_selects_adapter py_ascii
                    [("LOG_ENV", " Google "); ("GOOGLE_CLOUD_PROJECT", "");
                     ("GCP_PROJECT_ID", "my-project")])).
    reflexivity.
  - apply (proj1 (proj2 (env_selects_adapter py_ascii
                           [("LOG_LEVEL", "DEBUG")]))).
    discriminate.
  - apply (proj1 (env_selects_adapter py_sample
                    [("LOG_ENV", nbsp ++ "google ")])).
    reflexivity.
  - apply (proj1 (proj2 (env_selects_adapter py_ascii
                           [("LOG_ENV", nbsp ++ "google ")]))).
    discriminate.
Defined.

(** ** The standard-logging bridge *)

Lemma get_trace_id_returns (w : World) :
  exists (t : string) (w' : World),
    LoggerCore.get_trace_id w = (Ok t, w')
    /\ loguru_calls w' = loguru_calls w.
Proof.
  unfold LoggerCore.get_trace_id, bind, trace_id_var_get, gets.
  destruct (negb _); eexists; eexists; split; reflexivity.
Qed.

Lemma find_level_name (n : string) (levels : list Level) (l : Level) :
  loguru.find_level n levels = Some l -> level_name l = n.
Proof.
  unfold loguru.find_level. intros H.
  apply find_some in H as [_ H]. now apply String.eqb_eq.
Qed.

Lemma get_trace_id_loguru (w : World) :
  exists (t : string) (w0 : World),
    LoggerCore.get_trace_id w = (Ok t, w0)
    /\ loguru_handlers w0 = loguru_handlers w
    /\ loguru_calls w0 = loguru_calls w
    /\ loguru.levels w0 = loguru.levels w.
Proof.
  unfold LoggerCore.get_trace_id, bind, trace_id_var_get, gets.
  destruct (negb _); eexists; eexists; repeat split.
Qed.

Lemma emit_level_known (record : InterceptHandler.LogRecord) (w : World)
  (l : Level) :
  loguru.level (InterceptHandler.levelname record) w = (Ok l, w) ->
  InterceptHandler.emit_level record w = (Ok (LevelName (level_name l)), w).
Proof.
  intros H.
  unfold InterceptHandler.emit_level, try_except_ValueError, bind.
  now rewrite H.
Qed.

Lemma emit_level_unknown (record : InterceptHandler.LogRecord) (w : World)
  (c : string) :
  loguru.level (InterceptHandler.levelname record) w
  = (Raise (ValueError c), w) ->
  InterceptHandler.emit_level record w
  = (Ok (LevelNo (InterceptHandler.levelno record)), w).
Proof.
  intros H.
  unfold InterceptHandler.emit_level, try_except_ValueError, bind.
  now rewrite H.
Qed.

(** [emit], once the level is chosen and the trace id read. *)
Lemma emit_after_level (logging_file : string) (frames : list string)
  (record : InterceptHandler.LogRecord) (w w0 : World) (level : LevelArg)
  (t : string) :
  InterceptHandler.emit_level record w = (Ok level, w) ->
  LoggerCore.get_trace_id w = (Ok t, w0) ->
  InterceptHandler.emit logging_file frames record w
  = match InterceptHandler.getMessage record with
    | Ok message =>
        loguru.log
          {| call_depth := InterceptHandler.caller_depth logging_file frames 2;
             call_exception := InterceptHandler.exc_info record;
             call_trace_id := t;
             call_name := InterceptHandler.name record;
             call_level := level;
             call_message := message |} w0
    | Raise e => (Raise e, w0)
    end.
Proof.
  intros Hlevel Hget. unfold InterceptHandler.emit.
  unfold bind at 1. rewrite Hlevel.
  unfold bind at 1. rewrite Hget.
  unfold bind at 1, lift.
  now destruct (InterceptHandler.getMessage record).
Qed.

Lemma log_at_known_name (c : LogCall) (w : World) (n : string) (l : Level) :
  call_level c = LevelName n ->
  loguru.find_level n (loguru.levels w) = Some l ->
  loguru.log c w = (Ok tt, accepted c w).
Proof.
  intros Hc Hl. unfold loguru.log, accepted. rewrite Hc, Hl.
  now destruct (loguru_handlers w).
Qed.

Lemma log_at_number (c : LogCall) (w : World) (no : Z) :
  call_level c = LevelNo no ->
  (0 <= no)%Z \/ loguru_handlers w = [] ->
  loguru.log c w = (Ok tt, accepted c w).
Proof.
  intros Hc Hno. unfold loguru.log, accepted. rewrite Hc.
  destruct (loguru_handlers w) as [|h hs]; [reflexivity|].
  destruct Hno as [Hno | Hno]; [|discriminate].
  apply Z.ltb_ge in Hno. now rewrite Hno.
Qed.

Lemma log_at_negative_number (c : LogCall) (w : World) (no : Z) :
  call_level c = LevelNo no ->
  (no < 0)%Z -> loguru_handlers w <> [] ->
  loguru.log c w = (Raise (ValueError (Str.of_Z no)), w).
Proof.
  intros Hc Hno Hh. unfold loguru.log. rewrite Hc.
  destruct (loguru_handlers w) as [|h hs]; [contradiction|].
  apply Z.ltb_lt in Hno. now rewrite Hno.
Qed.

Lemma calls_accepted (c : LogCall) (w0 w : World) :
  loguru_handlers w0 = loguru_handlers w ->
  loguru_calls w0 = loguru_calls w ->
  loguru_handlers w <> [] ->
  loguru_calls (accepted c w0) = (loguru_calls w ++ [c])%list.
Proof.
  intros Hh Hc Hne. unfold accepted. rewrite Hh.
  destruct (loguru_handlers w); [contradiction|].
  cbn [loguru_calls with_calls]. now rewrite Hc.
Qed.

(** C8 (as amended): for a record whose message formats, [emit] hands the
    record to loguru at the level's registered name when the registry knows
    the record's level name; when the lookup raises, the exception is
    absorbed and the record is handed over at its numeric level, [emit]
    returning normally when that number is not negative or no sink is
    installed.  In both cases the call carries the current trace id, the
    record's logger name and its message.  With a sink installed, a negative
    number makes the log call raise [ValueError] out of [emit]. *)
Theorem emit_level_fallback (logging_file : string) (frames : list string)
  (record : InterceptHandler.LogRecord) (w : World) (message : string) :
  InterceptHandler.getMessage record = Ok message ->
  let sent (level : LevelArg) (t : string) :=
    {| call_depth := InterceptHandler.caller_depth logging_file frames 2;
       call_exception := InterceptHandler.exc_info record;
       call_trace_id := t;
       call_name := InterceptHandler.name record;
       call_level := level;
       call_message := message |} in
  (forall l : Level,
     loguru.level (InterceptHandler.levelname record) w = (Ok l, w) ->
     level_name l = InterceptHandler.levelname record
     /\ exists (t : string) (w' : World),
          InterceptHandler.emit logging_file frames record w = (Ok tt, w')
          /\ fst (LoggerCore.get_trace_id w) = Ok t
          /\ (loguru_handlers w <> [] ->
              loguru_calls w'
              = (loguru_calls w
                 ++ [sent (LevelName (level_name l)) t])%list))
  /\ (forall c : string,
        loguru.level (InterceptHandler.levelname record) w
        = (Raise (ValueError c), w) ->
        ((0 <= InterceptHandler.levelno record)%Z
         \/ loguru_handlers w = [] ->
         exists (t : string) (w' : World),
           InterceptHandler.emit logging_file frames record w = (Ok tt, w')
           /\ fst (LoggerCore.get_trace_id w) = Ok t
           /\ (loguru_handlers w <> [] ->
               loguru_calls w'
               = (loguru_calls w
                  ++ [sent (LevelNo (InterceptHandler.levelno record)) t])
                 %list))
        /\ ((InterceptHandler.levelno record < 0)%Z ->
            loguru_handlers w <> [] ->
            fst (InterceptHandler.emit logging_file frames record w)
            = Raise (ValueError
                       (Str.of_Z (InterceptHandler.levelno record))))).
Proof.
  intros Hmsg sent.
  destruct (get_trace_id_loguru w) as [t [w0 [Hget [Hh [Hc Hlv]]]]].
  split.
  - intros l Hl.
    assert (Hfind : loguru.find_level (InterceptHandler.levelname record)
                      (loguru.levels w) = Some l).
    { unfold loguru.level in Hl.
      destruct (loguru.find_level _ _) as [l'|]; [|discriminate].
      now injection Hl as <-. }
    pose proof (find_level_name _ _ _ Hfind) as Hname.
    split; [exact Hname|].
    exists t, (accepted (sent (LevelName (level_name l)) t) w0).
    rewrite (emit_after_level logging_file frames record w w0
               (LevelName (level_name l)) t
               (emit_level_known record w l Hl) Hget), Hmsg.
    split.
    + apply log_at_known_name with (n := level_name l) (l := l);
        [reflexivity|]. now rewrite Hlv, Hname.
    + split; [now rewrite Hget|]. now apply calls_accepted.
  - intros c Hraise.
    pose proof (emit_after_level logging_file frames record w w0
                  (LevelNo (InterceptHandler.levelno record)) t
                  (emit_level_unknown record w c Hraise) Hget) as Hemit.
    rewrite Hmsg in Hemit. split.
    + intros Hno.
      exists t, (accepted (sent (LevelNo (InterceptHandler.levelno record)) t)
                   w0).
      rewrite Hemit. split.
      * apply log_at_number with (no := InterceptHandler.levelno record);
          [reflexivity|]. now rewrite Hh.
      * split; [now rewrite Hget|]. now apply calls_accepted.
    + intros Hneg Hne. rewrite Hemit.
      rewrite (log_at_negative_number _ w0 (InterceptHandler.levelno record));
        [reflexivity | reflexivity | exact Hneg | now rewrite Hh].
Qed.

Lemma emit_level_fallback_witness :
  InterceptHandler.getMessage level15_record = Ok "Test message"
  /\ loguru.level (InterceptHandler.levelname level15_record) console_world
     = (Raise (ValueError "Level 15"), console_world)
  /\ (exists (t : string) (w' : World),
        InterceptHandler.emit "logging/__init__.py"
          ["logging/__init__.py"; "app.py"] level15_record console_world
        = (Ok tt, w')
        /\ fst (LoggerCore.get_trace_id console_world) = Ok t
        /\ (loguru_handlers console_world <> [] ->
            loguru_calls w'
            = (loguru_calls console_world
               ++ [ {| call_depth := 3; call_exception := None;
                       call_trace_id := t; call_name := "uvicorn";
                       call_level := LevelNo 15;
                       call_message := "Test message" |} ])%list))
  /\ loguru.level (InterceptHandler.levelname info_record) console_world
     = (Ok {| level_name := "INFO"; level_no := 20 |}, console_world).
Proof.
  split; [reflexivity|]. split; [reflexivity|]. split; [|reflexivity].
  apply (proj1 (proj2 (emit_level_fallback "logging/__init__.py"
                         ["logging/__init__.py"; "app.py"] level15_record
                         console_world "Test message" eq_refl)
                 "Level 15" eq_refl)).
  left. vm_compute. discriminate.
Defined.

(** C8 (as stated) fails on two records handed to [emit] while a sink is
    installed: one at the numeric level -1, whose name "Level -1" the
    registry does not know, for which the fallback makes the log call raise
    [ValueError]; one at INFO whose arguments do not fit its message, for
    which [getMessage()] raises [TypeError] although the level is known. *)
Lemma emit_can_raise :
  (loguru.level (InterceptHandler.levelname negative_level_record)
     console_world
   = (Raise (ValueError "Level -1"), console_world)
   /\ fst (InterceptHandler.emit "logging/__init__.py"
             ["logging/__init__.py"; "app.py"] negative_level_record
             console_world)
      = Raise (ValueError "-1"))
  /\ (loguru.level (InterceptHandler.levelname unformattable_record)
        console_world
      = (Ok {| level_name := "INFO"; level_no := 20 |}, console_world)
      /\ fst (InterceptHandler.emit "logging/__init__.py"
                ["logging/__init__.py"; "app.py"] unformattable_record
                console_world)
         = Raise (TypeError
                    "not all arguments converted during string formatting")).
Proof. repeat split. Qed.

(** ** Cloud-schema formatting *)

Lemma get_set_same {V : Type} (k : string) (v : V) (d : list (string * V)) :
  Dict.get k (Dict.set k v d) = Some v.
Proof.
  induction d as [|[k' v'] d IH]; simpl.
  - now rewrite String.eqb_refl.
  - destruct (k' =? k) eqn:E; simpl; now rewrite E.
Qed.

Lemma get_set_other {V : Type} (k k' : string) (v : V) (d : list (string * V)) :
  k' <> k -> Dict.get k (Dict.set k' v d) = Dict.get k d.
Proof.
  intros Hne. apply String.eqb_neq in Hne.
  induction d as [|[k0 v0] d IH]; simpl.
  - now rewrite Hne.
  - destruct (k0 =? k') eqn:E; simpl.
    + apply String.eqb_eq in E. subst k0. now rewrite Hne.
    + now rewrite IH.
Qed.

(** The loop over the extras writes neither a consumed key nor a key the
    extras do not hold. *)
Lemma get_add_extras (k : string) (extra : list (string * pyval))
  (entry : list (string * GCPAdapter.EntryVal)) :
  GCPAdapter.consumed k = true \/ Dict.get k extra = None ->
  Dict.get k (GCPAdapter.add_extras extra entry) = Dict.get k entry.
Proof.
  unfold GCPAdapter.add_extras.
  revert entry. induction extra as [|[k0 v0] extra IH]; intros entry H;
    [reflexivity|].
  cbn [fold_left fst snd]. rewrite IH.
  - destruct (GCPAdapter.consumed k0) eqn:Ek0; cbn [negb]; [reflexivity|].
    apply get_set_other. intros ->.
    destruct H as [H | H]; [congruence|].
    simpl in H. now rewrite String.eqb_refl in H.
  - destruct H as [H | H]; [now left | right].
    simpl in H. now destruct (k0 =? k).
Qed.

Lemma get_add_logger (k : string) (extra : list (string * pyval))
  (entry : list (string * GCPAdapter.EntryVal)) :
  "logger" <> k ->
  Dict.get k (GCPAdapter.add_logger extra entry) = Dict.get k entry.
Proof.
  intros Hk. unfold GCPAdapter.add_logger.
  destruct (Dict.get "name" extra) as [n|]; [|reflexivity].
  destruct (truthy n); [|reflexivity].
  now apply get_set_other.
Qed.

Lemma gcp_trace_id_nonempty (t : string) :
  GCPAdapter._is_gcp_trace_id t = true -> Str.nonempty t = true.
Proof.
  unfold GCPAdapter._is_gcp_trace_id. intros H.
  apply andb_true_iff in H as [H _]. apply Nat.eqb_eq in H.
  now apply nonempty_of_length with (n := 31%nat).
Qed.

(** C2 (as amended): the entry built for a record with a non-empty trace id
    holds it under 'trace_id'.  For a record whose extras carry no field
    named 'logging.googleapis.com/trace': when the trace id is not exactly 32
    lowercase hexadecimal characters the entry has no such key, whatever the
    project id; when it is, and a non-empty project id [p] is configured
    ("my-project", say), the key holds "projects/p/traces/<id>". *)
Theorem gcp_trace_field (project_id : option string)
  (record : GCPAdapter.LoguruRecord) :
  let trace_id := GCPAdapter.record_trace_id record in
  let entry := GCPAdapter.log_entry project_id record in
  (trace_id <> "" ->
     Dict.get "trace_id" entry = Some (GCPAdapter.EVal (PStr trace_id)))
  /\ (Dict.get GCPAdapter.TRACE_KEY (GCPAdapter.rec_extra record) = None ->
      GCPAdapter._is_gcp_trace_id trace_id = false ->
      Dict.get GCPAdapter.TRACE_KEY entry = None)
  /\ (Dict.get GCPAdapter.TRACE_KEY (GCPAdapter.rec_extra record) = None ->
      GCPAdapter._is_gcp_trace_id trace_id = true ->
      forall p : string, project_id = Some p -> p <> "" ->
      Dict.get GCPAdapter.TRACE_KEY entry
      = Some (GCPAdapter.EVal
                (PStr ("projects/" ++ p ++ "/traces/" ++ trace_id)))).
Proof.
  intros trace_id entry. subst entry. unfold GCPAdapter.log_entry.
  fold trace_id.
  split; [|split].
  - intros Hne. apply nonempty_iff in Hne.
    rewrite get_add_extras by (left; reflexivity).
    rewrite get_add_logger by discriminate.
    unfold GCPAdapter.add_trace. rewrite Hne.
    destruct (_ && _).
    + rewrite get_set_other by discriminate. apply get_set_same.
    + apply get_set_same.
  - intros Hextra Hid.
    rewrite get_add_extras by (now right).
    rewrite get_add_logger by discriminate.
    unfold GCPAdapter.add_trace. rewrite Hid, andb_false_r.
    destruct (Str.nonempty trace_id); [|reflexivity].
    rewrite get_set_other by discriminate. reflexivity.
  - intros Hextra Hid p -> Hp.
    rewrite get_add_extras by (now right).
    rewrite get_add_logger by discriminate.
    unfold GCPAdapter.add_trace.
    rewrite (gcp_trace_id_nonempty trace_id Hid), Hid.
    apply nonempty_iff in Hp. cbn [GCPAdapter.option_truthy]. rewrite Hp.
    cbn [andb GCPAdapter.option_str]. apply get_set_same.
Qed.

Lemma gcp_trace_field_witness :
  Dict.get "trace_id" (GCPAdapter.log_entry (Some "my-project") short_id_record)
  = Some (GCPAdapter.EVal (PStr "05556afc"))
  /\ Dict.get GCPAdapter.TRACE_KEY
       (GCPAdapter.log_entry (Some "my-project") short_id_record) = None
  /\ Dict.get GCPAdapter.TRACE_KEY
       (GCPAdapter.log_entry (Some "my-project") long_id_record)
     = Some (GCPAdapter.EVal
               (PStr "projects/my-project/traces/0123456789abcdef0123456789abcdef")).
Proof.
  pose proof (gcp_trace_field (Some "my-project") short_id_record)
    as [Hshort [Habsent _]].
  pose proof (gcp_trace_field (Some "my-project") long_id_record)
    as [_ [_ Hlong]].
  split; [|split].
  - apply Hshort. discriminate.
  - apply Habsent; reflexivity.
  - apply (Hlong eq_refl eq_refl "my-project" eq_refl). discriminate.
Defined.

(** C2 (as stated) fails on two records formatted with the project id
    "my-project": one carries the 8-character id and an extra field named
    'logging.googleapis.com/trace', and the entry holds that key; the other
    carries the empty id, which is not 32 hexadecimal characters, and the
    entry has no 'trace_id' key. *)
Lemma gcp_trace_field_counterexample :
  (GCPAdapter.record_trace_id spoofed_record = "05556afc"
   /\ GCPAdapter._is_gcp_trace_id "05556afc" = false
   /\ Dict.get GCPAdapter.TRACE_KEY
        (GCPAdapter.log_entry (Some "my-project") spoofed_record)
      = Some (GCPAdapter.EVal (PStr "projects/other/traces/05556afc")))
  /\ (GCPAdapter.record_trace_id empty_id_record = ""
      /\ GCPAdapter._is_gcp_trace_id "" = false
      /\ Dict.get "trace_id"
           (GCPAdapter.log_entry (Some "my-project") empty_id_record)
         = None).
Proof. repeat split. Qed.

(** * Further properties of the code *)

(** ** Trace context, in every state *)

Lemma get_trace_id_present (w : World) (t : string) :
  _trace_id_var w = Some t -> t <> "" ->
  LoggerCore.get_trace_id w = (Ok t, w).
Proof.
  intros Hslot Hne. apply nonempty_iff in Hne.
  unfold LoggerCore.get_trace_id, bind, trace_id_var_get, gets.
  rewrite Hslot. now rewrite Hne.
Qed.

Lemma get_trace_id_absent (w : World) :
  (_trace_id_var w = None \/ _trace_id_var w = Some "") ->
  LoggerCore.get_trace_id w
  = (Ok (next_trace_id w),
     with_trace_id_var (Some (next_trace_id w))
       (with_urandom_pos (urandom_pos w + 16) w)).
Proof.
  intros Hslot.
  unfold LoggerCore.get_trace_id, bind, trace_id_var_get, gets.
  now destruct Hslot as [-> | ->].
Qed.

Lemma next_trace_id_nonempty (w : World) : next_trace_id w <> "".
Proof.
  apply nonempty_iff, default_trace_id_nonempty,
    take8_hex_is_default_trace_id.
Qed.

Lemma slot_cases (w : World) :
  (_trace_id_var w = None \/ _trace_id_var w = Some "")
  \/ (exists t, _trace_id_var w = Some t /\ t <> "").
Proof.
  destruct (_trace_id_var w) as [t|]; [|now left; left].
  destruct (string_dec t "") as [-> | Hne]; [now left; right|].
  right. now exists t.
Qed.

(** X1: in every state [get_trace_id()] returns a non-empty identifier and
    leaves it installed; an immediately repeated call returns the same value
    and changes nothing.  A non-empty identifier already in the slot is
    returned as it is, without touching the state (no entropy is drawn). *)
Theorem get_trace_id_is_stable (w : World) :
  exists (t : string) (w' : World),
    LoggerCore.get_trace_id w = (Ok t, w')
    /\ t <> ""
    /\ _trace_id_var w' = Some t
    /\ LoggerCore.get_trace_id w' = (Ok t, w')
    /\ (forall t0, _trace_id_var w = Some t0 -> t0 <> "" -> t = t0 /\ w' = w).
Proof.
  destruct (slot_cases w) as [Habsent | [t [Hslot Hne]]].
  - exists (next_trace_id w). eexists.
    split; [now apply get_trace_id_absent|].
    split; [apply next_trace_id_nonempty|].
    split; [reflexivity|]. split.
    + apply get_trace_id_present; [reflexivity | apply next_trace_id_nonempty].
    + intros t0 Ht0 Hne0. destruct Habsent as [H | H]; rewrite H in Ht0;
        [discriminate | injection Ht0 as <-; contradiction].
  - exists t, w. split; [now apply get_trace_id_present|].
    split; [exact Hne|]. split; [exact Hslot|].
    split; [now apply get_trace_id_present|].
    intros t0 Ht0 _. rewrite Hslot in Ht0. injection Ht0 as <-. now split.
Qed.

Lemma get_trace_id_is_stable_witness :
  exists (t : string) (w' : World),
    LoggerCore.get_trace_id (with_trace_id_var (Some "req-0001") fresh_world)
    = (Ok t, w')
    /\ t = "req-0001"
    /\ w' = with_trace_id_var (Some "req-0001") fresh_world.
Proof.
  destruct (get_trace_id_is_stable
              (with_trace_id_var (Some "req-0001") fresh_world))
    as [t [w' [Hget [_ [_ [_ Hkeep]]]]]].
  exists t, w'. split; [exact Hget|].
  apply (Hkeep "req-0001"); [reflexivity | discriminate].
Defined.

(** X2: [reset_trace_id()] discards whatever identifier the context held,
    custom or generated: after [set_trace_id(id)] and [reset_trace_id()],
    [get_trace_id()] returns the identifier generated from the next sixteen
    bytes of entropy, a default-shaped one that does not depend on [id]. *)
Theorem reset_discards_custom_id (id : string) (w : World) :
  fst ((LoggerCore.set_trace_id id ;; LoggerCore.reset_trace_id ;;
        LoggerCore.get_trace_id) w)
  = Ok (next_trace_id w)
  /\ is_default_trace_id (next_trace_id w) = true
  /\ urandom_pos
       (snd ((LoggerCore.set_trace_id id ;; LoggerCore.reset_trace_id ;;
              LoggerCore.get_trace_id) w))
     = (urandom_pos w + 16)%nat.
Proof.
  assert (Hrun :
    (LoggerCore.set_trace_id id ;; LoggerCore.reset_trace_id ;;
     LoggerCore.get_trace_id) w
    = LoggerCore.get_trace_id
        (with_trace_id_var (Some (next_trace_id w))
           (with_urandom_pos (urandom_pos w + 16)
              (with_trace_id_var (Some id) w)))) by reflexivity.
  rewrite Hrun.
  rewrite (get_trace_id_present _ (next_trace_id w))
    by (reflexivity || apply next_trace_id_nonempty).
  split; [reflexivity|]. split; [|reflexivity].
  apply take8_hex_is_default_trace_id.
Qed.

(** ** The generated identifier and the entropy it comes from *)

Lemma append_empty_r (s : string) : s ++ "" = s.
Proof. induction s as [|c s IH]; simpl; [reflexivity | now rewrite IH]. Qed.

Lemma append_assoc (a b c : string) : (a ++ b) ++ c = a ++ (b ++ c).
Proof. induction a as [|x a IH]; simpl; [reflexivity | now rewrite IH]. Qed.

Lemma take_append_exact (n : nat) (a b : string) :
  String.length a = n -> Str.take n (a ++ b) = a.
Proof.
  unfold Str.take. revert n. induction a as [|c a IH]; intros n Hn.
  - simpl in Hn. subst n. destruct b; reflexivity.
  - simpl in Hn. subst n. simpl. now rewrite IH.
Qed.

Lemma append_last_inj (a b : string) (c d : ascii) :
  a ++ String c "" = b ++ String d "" -> a = b /\ c = d.
Proof.
  revert b. induction a as [|x a IH]; intros [|y b] H; simpl in H.
  - injection H as ->. now split.
  - injection H as _ H. destruct b; discriminate.
  - injection H as _ H. destruct a; discriminate.
  - injection H as -> H. apply IH in H as [-> ->]. now split.
Qed.

Lemma hex_digits_split (n m : nat) (z : Z) :
  uuid.hex_digits (n + m) z
  = uuid.hex_digits n (z / 16 ^ Z.of_nat m) ++ uuid.hex_digits m z.
Proof.
  revert z. induction m as [|m IH]; intros z.
  - rewrite Nat.add_0_r. simpl. now rewrite Z.div_1_r, append_empty_r.
  - rewrite Nat.add_succ_r. cbn [uuid.hex_digits]. rewrite IH.
    rewrite append_assoc. f_equal. f_equal.
    rewrite Nat2Z.inj_succ, Z.pow_succ_r by lia.
    rewrite Z.div_div by lia. reflexivity.
Qed.

Lemma hex_char_inj (a b : Z) :
  (0 <= a < 16)%Z -> (0 <= b < 16)%Z ->
  uuid.hex_char a = uuid.hex_char b -> a = b.
Proof.
  intros Ha Hb.
  assert (Hna : exists n, (n < 16)%nat /\ a = Z.of_nat n)
    by (exists (Z.to_nat a); split; lia).
  assert (Hnb : exists n, (n < 16)%nat /\ b = Z.of_nat n)
    by (exists (Z.to_nat b); split; lia).
  destruct Hna as [n [Hn ->]]. destruct Hnb as [m [Hm ->]].
  intros H. f_equal.
  do 16 (destruct n as [|n]; [
    do 16 (destruct m as [|m]; [first [reflexivity | discriminate H]|]); lia |]).
  lia.
Qed.

Lemma hex_digits_inj (n : nat) (a b : Z) :
  uuid.hex_digits n a = uuid.hex_digits n b ->
  (a mod 16 ^ Z.of_nat n = b mod 16 ^ Z.of_nat n)%Z.
Proof.
  revert a b. induction n as [|n IH]; intros a b H.
  - simpl. now rewrite !Z.mod_1_r.
  - cbn [uuid.hex_digits] in H. apply append_last_inj in H as [Hhi Hlo].
    apply IH in Hhi.
    apply hex_char_inj in Hlo; try (apply Z.mod_pos_bound; lia).
    rewrite Nat2Z.inj_succ, Z.pow_succ_r by lia.
    rewrite !Z.rem_mul_r by lia. congruence.
Qed.

Lemma int_from_bytes_app (a b : list Init.Byte.byte) :
  uuid.int_from_bytes (a ++ b)%list
  = (uuid.int_from_bytes a * 256 ^ Z.of_nat (List.length b)
     + uuid.int_from_bytes b)%Z.
Proof.
  unfold uuid.int_from_bytes. rewrite fold_left_app.
  generalize (fold_left
                (fun acc x => (acc * 256 + Z.of_N (Strings.Byte.to_N x))%Z)
                a 0%Z) as hi.
  induction b as [|x b IH] using rev_ind; intros hi.
  - simpl. lia.
  - rewrite !fold_left_app, length_app. cbn [fold_left List.length].
    rewrite IH. rewrite Nat2Z.inj_add, Z.pow_add_r by lia.
    change (Z.of_nat 1) with 1%Z. lia.
Qed.

(** The variant and version bits forced by [UUID] lie below bit 96. *)
Lemma UUID_int_high_bits (bs : list Init.Byte.byte) :
  (uuid.UUID_int bs 4 / 2 ^ 96 = uuid.int_from_bytes bs / 2 ^ 96)%Z.
Proof.
  rewrite <- !Z.shiftr_div_pow2 by lia. unfold uuid.UUID_int.
  rewrite Z.shiftr_lor, Z.shiftr_land, Z.shiftr_lor, Z.shiftr_land.
  change (Z.shiftr (Z.lnot (Z.shiftl 0xc000 48)) 96) with (-1)%Z.
  change (Z.shiftr (Z.lnot (Z.shiftl 0xf000 64)) 96) with (-1)%Z.
  change (Z.shiftr (Z.shiftl 0x8000 48) 96) with 0%Z.
  change (Z.shiftr (Z.shiftl 4 76) 96) with 0%Z.
  now rewrite !Z.land_m1_r, !Z.lor_0_r.
Qed.

Lemma next_trace_id_from_four_bytes (w : World) :
  next_trace_id w
  = uuid.hex_digits 8 (uuid.int_from_bytes (next_bytes 4 w)).
Proof.
  unfold next_trace_id, uuid.hex.
  rewrite (hex_digits_split 8 24).
  rewrite take_append_exact by apply hex_digits_length.
  f_equal.
  change (16 ^ Z.of_nat 24)%Z with (2 ^ 96)%Z.
  rewrite UUID_int_high_bits.
  change (seq (urandom_pos w) 16)
    with (seq (urandom_pos w) (4 + 12)).
  rewrite seq_app, map_app, int_from_bytes_app.
  rewrite length_map, length_seq.
  change (256 ^ Z.of_nat 12)%Z with (2 ^ 96)%Z.
  rewrite Z.div_add_l by lia.
  rewrite Z.div_small; [unfold next_bytes; lia|].
  pose proof (int_from_bytes_below
                (List.map (urandom_source w) (seq (urandom_pos w + 4) 12)))
    as Hlow.
  rewrite length_map, length_seq in Hlow. exact Hlow.
Qed.

(** X3: the identifier installed by [reset_trace_id()] is the eight
    lowercase hexadecimal digits of the first four bytes read from
    [os.urandom] (the bits [uuid4] forces lie outside the first eight
    digits), and two resets install the same identifier exactly when those
    four bytes spell the same 32-bit number. *)
Theorem reset_trace_id_is_hex_of_four_bytes (w v : World) :
  _trace_id_var (snd (LoggerCore.reset_trace_id w))
  = Some (uuid.hex_digits 8 (uuid.int_from_bytes (next_bytes 4 w)))
  /\ (_trace_id_var (snd (LoggerCore.reset_trace_id w))
      = _trace_id_var (snd (LoggerCore.reset_trace_id v))
      <-> uuid.int_from_bytes (next_bytes 4 w)
          = uuid.int_from_bytes (next_bytes 4 v)).
Proof.
  assert (Hrun : forall u, _trace_id_var (snd (LoggerCore.reset_trace_id u))
                           = Some (next_trace_id u)) by reflexivity.
  rewrite !Hrun, !next_trace_id_from_four_bytes.
  split; [reflexivity|]. split.
  - intros H.
    assert (H8 : uuid.hex_digits 8 (uuid.int_from_bytes (next_bytes 4 w))
                 = uuid.hex_digits 8 (uuid.int_from_bytes (next_bytes 4 v)))
      by congruence.
    clear H. rename H8 into H. apply hex_digits_inj in H.
    assert (Hb : forall u, (0 <= uuid.int_from_bytes (next_bytes 4 u)
                            < 16 ^ Z.of_nat 8)%Z).
    { intros u. pose proof (int_from_bytes_below (next_bytes 4 u)) as Hu.
      unfold next_bytes in Hu. rewrite length_map, length_seq in Hu.
      exact Hu. }
    rewrite !Z.mod_small in H by apply Hb. exact H.
  - now intros ->.
Qed.

(** ** Installing sinks *)

Lemma add_sink_known (a : Adapter) (w : World) (l : Level) :
  loguru.find_level (adapter_level a) (loguru.levels w) = Some l ->
  (_ <- loguru.add (get_sink_config a) ;; ret tt) w
  = (Ok tt,
     with_handlers
       (loguru_handlers w
        ++ [ {| handler_id := loguru_next_id w;
                handler_levelno := level_no l;
                handler_config := get_sink_config a |} ])
       (S (loguru_next_id w)) w).
Proof.
  intros H. unfold bind, loguru.add, loguru.level, bind.
  replace (cfg_level (get_sink_config a)) with (adapter_level a)
    by (now destruct a).
  change (loguru.levels
            (with_handlers (loguru_handlers w) (S (loguru_next_id w)) w))
    with (loguru.levels w).
  now rewrite H.
Qed.

Lemma add_sink_unknown (a : Adapter) (w : World) :
  loguru.find_level (adapter_level a) (loguru.levels w) = None ->
  (_ <- loguru.add (get_sink_config a) ;; ret tt) w
  = (Raise (ValueError (adapter_level a)),
     with_handlers (loguru_handlers w) (S (loguru_next_id w)) w).
Proof.
  intros H. unfold bind, loguru.add, loguru.level, bind.
  replace (cfg_level (get_sink_config a)) with (adapter_level a)
    by (now destruct a).
  change (loguru.levels
            (with_handlers (loguru_handlers w) (S (loguru_next_id w)) w))
    with (loguru.levels w).
  now rewrite H.
Qed.

Lemma install_sinks (adapters : list Adapter) (w : World) :
  levels_registered adapters w = true ->
  for_each adapters
    (fun adapter => _ <- loguru.add (get_sink_config adapter) ;; ret tt) w
  = (Ok tt,
     with_handlers
       (loguru_handlers w
        ++ sinks_for (loguru.levels w) (loguru_next_id w) adapters)
       (loguru_next_id w + List.length adapters) w).
Proof.
  revert w. induction adapters as [|a rest IH]; intros w Hreg.
  - cbn [for_each sinks_for List.length]. unfold ret.
    rewrite app_nil_r, Nat.add_0_r. now destruct w.
  - cbn [levels_registered forallb] in Hreg.
    apply andb_true_iff in Hreg as [Ha Hrest].
    cbn [for_each sinks_for]. unfold bind at 1. cbv beta.
    destruct (loguru.find_level (adapter_level a) (loguru.levels w))
      as [l|] eqn:E; [|discriminate].
    rewrite (add_sink_known a w l E).
    rewrite IH by exact Hrest.
    cbn [loguru_handlers loguru_next_id with_handlers List.length].
    f_equal. rewrite <- app_assoc, Nat.add_succ_r. reflexivity.
Qed.

Lemma install_sinks_fails (adapters : list Adapter) (w : World) :
  levels_registered adapters w = false ->
  exists (name : string) (w' : World),
    for_each adapters
      (fun adapter => _ <- loguru.add (get_sink_config adapter) ;; ret tt) w
    = (Raise (ValueError name), w')
    /\ In name (List.map adapter_level adapters)
    /\ loguru.find_level name (loguru.levels w) = None
    /\ _configured w' = _configured w
    /\ _adapters w' = _adapters w.
Proof.
  revert w. induction adapters as [|a rest IH]; intros w Hreg;
    [discriminate|].
  cbn [levels_registered forallb] in Hreg.
  cbn [for_each]. unfold bind at 1. cbv beta.
  destruct (loguru.find_level (adapter_level a) (loguru.levels w))
    as [l|] eqn:E.
  - cbn [andb] in Hreg. rewrite (add_sink_known a w l E).
    match goal with
    | |- context [for_each rest ?f ?w1] =>
        destruct (IH w1 Hreg) as [name [w' [Hrun [Hin [Hnone [Hc Ha]]]]]]
    end.
    exists name, w'. rewrite Hrun.
    split; [reflexivity|]. split; [now right|]. now repeat split.
  - rewrite (add_sink_unknown a w E). exists (adapter_level a). eexists.
    split; [reflexivity|]. split; [now left|]. now repeat split.
Qed.

Lemma sinks_for_configs (levels : list Level) (first : nat)
  (adapters : list Adapter) :
  forallb (fun a => match loguru.find_level (adapter_level a) levels with
                    | Some _ => true | None => false end) adapters = true ->
  List.map handler_config (sinks_for levels first adapters)
  = List.map get_sink_config adapters
  /\ List.map handler_id (sinks_for levels first adapters)
     = seq first (List.length adapters)
  /\ List.map (fun h => Some (handler_levelno h))
       (sinks_for levels first adapters)
     = List.map (fun a => option_map level_no
                            (loguru.find_level (adapter_level a) levels))
         adapters.
Proof.
  revert first. induction adapters as [|a rest IH]; intros first H;
    [now repeat split|].
  cbn [forallb] in H. apply andb_true_iff in H as [Ha Hrest].
  cbn [sinks_for List.map List.length seq].
  destruct (loguru.find_level (adapter_level a) levels) as [l|] eqn:E;
    [|discriminate].
  destruct (IH (S first) Hrest) as [H1 [H2 H3]].
  cbn [List.map option_map handler_config handler_id handler_levelno].
  rewrite H1, H2, H3. repeat split.
Qed.

(** X4: on an unconfigured core, [configure(adapters)] with adapters whose
    levels loguru knows returns normally, leaves the core configured with
    exactly that list, and replaces loguru's handlers by one handler per
    adapter, in the order of the list, each with the adapter's sink
    configuration, the number of its level as threshold, and consecutive
    fresh ids. *)
Theorem configure_installs_one_sink_per_adapter (adapters : list Adapter)
  (w : World) :
  _configured w = false ->
  levels_registered adapters w = true ->
  exists w' : World,
    LoggerCore.configure (Some adapters) w = (Ok tt, w')
    /\ _configured w' = true
    /\ _adapters w' = adapters
    /\ List.map handler_config (loguru_handlers w')
       = List.map get_sink_config adapters
    /\ List.map handler_id (loguru_handlers w')
       = seq (loguru_next_id w) (List.length adapters)
    /\ List.map (fun h => Some (handler_levelno h)) (loguru_handlers w')
       = List.map (fun a => option_map level_no
                              (loguru.find_level (adapter_level a)
                                 (loguru.levels w)))
           adapters.
Proof.
  intros Hc Hreg. eexists.
  rewrite (configure_unconfigured (Some adapters) w Hc).
  unfold loguru.remove. unfold bind at 1. unfold modify at 1.
  unfold bind at 1. unfold bind at 1. unfold gets at 1.
  cbn [_adapters with_adapters with_handlers].
  rewrite install_sinks by exact Hreg.
  unfold modify.
  split; [reflexivity|].
  cbn [_configured _adapters loguru_handlers loguru_next_id with_configured
       with_handlers with_adapters app].
  split; [reflexivity|]. split; [reflexivity|].
  apply sinks_for_configs. exact Hreg.
Qed.

Lemma configure_installs_one_sink_per_adapter_witness :
  exists w' : World,
    LoggerCore.configure
      (Some [ConsoleAdapter "WARNING" true; JSONAdapter "DEBUG"]) fresh_world
    = (Ok tt, w')
    /\ List.map handler_id (loguru_handlers w') = [1; 2]%nat
    /\ List.map (fun h => Some (handler_levelno h)) (loguru_handlers w')
       = [Some 30%Z; Some 10%Z].
Proof.
  destruct (configure_installs_one_sink_per_adapter
              [ConsoleAdapter "WARNING" true; JSONAdapter "DEBUG"] fresh_world
              eq_refl eq_refl)
    as [w' [Hrun [_ [_ [_ [Hids Hnos]]]]]].
  exists w'. split; [exact Hrun|]. split; [exact Hids | exact Hnos].
Defined.

(** X5: on an unconfigured core, [configure(adapters)] with an adapter whose
    level loguru does not know (a lowercase "info", say) raises the
    [ValueError] of that level name.  The core is left unconfigured, yet
    [get_adapters()] already returns the new list: the list is assigned
    before the sinks are added, the flag only after. *)
Theorem configure_with_unknown_level_raises (adapters : list Adapter)
  (w : World) :
  _configured w = false ->
  levels_registered adapters w = false ->
  exists (name : string) (w' : World),
    LoggerCore.configure (Some adapters) w = (Raise (ValueError name), w')
    /\ In name (List.map adapter_level adapters)
    /\ loguru.find_level name (loguru.levels w) = None
    /\ LoggerCore.is_configured w' = (Ok false, w')
    /\ LoggerCore.get_adapters w' = (Ok adapters, w').
Proof.
  intros Hc Hreg.
  rewrite (configure_unconfigured (Some adapters) w Hc).
  unfold loguru.remove. unfold bind at 1. unfold modify at 1.
  unfold bind at 1. unfold bind at 1. unfold gets at 1.
  cbn [_adapters with_adapters with_handlers].
  match goal with
  | |- context [for_each adapters ?f ?w1] =>
      destruct (install_sinks_fails adapters w1 Hreg)
        as [name [w' [Hrun [Hin [Hnone [Hflag Hlist]]]]]]
  end.
  exists name, w'. rewrite Hrun.
  split; [reflexivity|]. split; [exact Hin|]. split; [exact Hnone|].
  unfold LoggerCore.is_configured, LoggerCore.get_adapters, gets.
  rewrite Hflag, Hlist. cbn. now rewrite Hc.
Qed.

Lemma configure_with_unknown_level_raises_witness :
  BaseAdapter.should_log py_ascii (ConsoleAdapter "info" true) "INFO"
  = Ok true
  /\ exists (name : string) (w' : World),
       LoggerCore.configure (Some [ConsoleAdapter "info" true]) fresh_world
       = (Raise (ValueError name), w')
       /\ In name ["info"]
       /\ LoggerCore.is_configured w' = (Ok false, w').
Proof.
  split; [reflexivity|].
  destruct (configure_with_unknown_level_raises
              [ConsoleAdapter "info" true] fresh_world eq_refl eq_refl)
    as [name [w' [Hrun [Hin [_ [Hflag _]]]]]].
  exists name, w'. split; [exact Hrun|]. split; [exact Hin | exact Hflag].
Defined.

(** ** Named loggers *)

Lemma get_trace_id_frame (w : World) :
  exists (t : string) (w' : World),
    LoggerCore.get_trace_id w = (Ok t, w')
    /\ t <> ""
    /\ _trace_id_var w' = Some t
    /\ _configured w' = _configured w
    /\ _adapters w' = _adapters w
    /\ loguru_handlers w' = loguru_handlers w.
Proof.
  destruct (slot_cases w) as [Habsent | [t [Hslot Hne]]].
  - exists (next_trace_id w). eexists.
    split; [now apply get_trace_id_absent|].
    split; [apply next_trace_id_nonempty|]. now repeat split.
  - exists t, w. split; [now apply get_trace_id_present|]. now repeat split.
Qed.

Lemma configure_default_ok (w : World) :
  _configured w = false ->
  exists w1 : World,
    LoggerCore.configure None w = (Ok tt, w1)
    /\ _configured w1 = true
    /\ _adapters w1 = [ConsoleAdapter_default]
    /\ List.map handler_config (loguru_handlers w1)
       = [get_sink_config ConsoleAdapter_default]
    /\ _trace_id_var w1 = _trace_id_var w.
Proof.
  intros H. eexists. split.
  { unfold LoggerCore.configure, bind, gets. rewrite H. reflexivity. }
  repeat split.
Qed.

Lemma get_logger_run (name : string) (w : World) :
  exists (t : string) (w' : World),
    LoggerCore.get_logger name w
    = (Ok {| LoggerCore.bound_name := name;
             LoggerCore.bound_trace_id := t |}, w')
    /\ t <> ""
    /\ _trace_id_var w' = Some t
    /\ _configured w' = true
    /\ (_configured w = true ->
        _adapters w' = _adapters w
        /\ loguru_handlers w' = loguru_handlers w)
    /\ (_configured w = false ->
        _adapters w' = [ConsoleAdapter_default]
        /\ List.map handler_config (loguru_handlers w')
           = [get_sink_config ConsoleAdapter_default]).
Proof.
  unfold LoggerCore.get_logger. unfold bind at 1.
  destruct (_configured w) eqn:Hc.
  - rewrite (configure_when_configured None w Hc).
    destruct (get_trace_id_frame w) as [t [w' [Hget [Hne [Hs [Hf [Ha Hh]]]]]]].
    exists t, w'. unfold bind. rewrite Hget.
    split; [reflexivity|]. split; [exact Hne|]. split; [exact Hs|].
    split; [congruence|]. split; [now split | discriminate].
  - destruct (configure_default_ok w Hc) as [w1 [Hrun [Hf1 [Ha1 [Hh1 _]]]]].
    rewrite Hrun.
    destruct (get_trace_id_frame w1) as [t [w' [Hget [Hne [Hs [Hf [Ha Hh]]]]]]].
    exists t, w'. unfold bind. rewrite Hget.
    split; [reflexivity|]. split; [exact Hne|]. split; [exact Hs|].
    split; [congruence|]. split; [discriminate|].
    intros _. split; congruence.
Qed.

(** X6: [get_logger(name)] never raises.  It leaves the core configured:
    an explicit configuration (adapters and sinks) is kept as it is, an
    unconfigured core gets the single default Console adapter and its sink.
    The handle carries [name] and the context's trace id, which is non-empty
    and is left installed in the context. *)
Theorem get_logger_configures_and_binds (name : string) (w : World) :
  exists (lg : LoggerCore.Logger) (w' : World),
    LoggerCore.get_logger name w = (Ok lg, w')
    /\ LoggerCore.bound_name lg = name
    /\ LoggerCore.bound_trace_id lg <> ""
    /\ _trace_id_var w' = Some (LoggerCore.bound_trace_id lg)
    /\ LoggerCore.is_configured w' = (Ok true, w')
    /\ (_configured w = true ->
        _adapters w' = _adapters w
        /\ loguru_handlers w' = loguru_handlers w)
    /\ (_configured w = false ->
        _adapters w' = [ConsoleAdapter_default]
        /\ List.map handler_config (loguru_handlers w')
           = [get_sink_config ConsoleAdapter_default]).
Proof.
  destruct (get_logger_run name w)
    as [t [w' [Hrun [Hne [Hs [Hf [Hkeep Hdef]]]]]]].
  eexists. exists w'. split; [exact Hrun|].
  cbn [LoggerCore.bound_name LoggerCore.bound_trace_id].
  split; [reflexivity|]. split; [exact Hne|]. split; [exact Hs|].
  split; [|split; assumption].
  unfold LoggerCore.is_configured, gets. now rewrite Hf.
Qed.

Lemma get_logger_configures_and_binds_witness :
  exists (lg : LoggerCore.Logger) (w' : World),
    LoggerCore.get_logger "api" console_world = (Ok lg, w')
    /\ _adapters w' = [ConsoleAdapter "INFO" true]
    /\ LoggerCore.bound_trace_id lg <> "".
Proof.
  destruct (get_logger_configures_and_binds "api" console_world)
    as [lg [w' [Hrun [_ [Hne [_ [_ [Hkeep _]]]]]]]].
  exists lg, w'. split; [exact Hrun|]. split; [|exact Hne].
  destruct (Hkeep eq_refl) as [Ha _]. rewrite Ha. reflexivity.
Defined.

(** X7: two named loggers requested one after the other in the same context
    carry the same trace id, whatever the state at the first request; the
    second request changes nothing. *)
Theorem successive_loggers_share_trace_id (a b : string) (w : World) :
  exists (t : string) (w' : World),
    LoggerCore.get_logger a w
    = (Ok {| LoggerCore.bound_name := a;
             LoggerCore.bound_trace_id := t |}, w')
    /\ LoggerCore.get_logger b w'
       = (Ok {| LoggerCore.bound_name := b;
                LoggerCore.bound_trace_id := t |}, w').
Proof.
  destruct (get_logger_run a w) as [t [w' [Hrun [Hne [Hs [Hf _]]]]]].
  exists t, w'. split; [exact Hrun|].
  unfold LoggerCore.get_logger. unfold bind at 1.
  rewrite (configure_when_configured None w' Hf).
  unfold bind. now rewrite (get_trace_id_present w' t Hs Hne).
Qed.

(** ** Order of configuration *)

Lemma intercept_keeps_configured (names : list string) (w : World) :
  _configured
    (snd (for_each names (fun logger_name =>
            logging.putLogger logger_name
              {| std_handlers := [InterceptHandler]; std_propagate := false |})
            w))
  = _configured w.
Proof. frame. Qed.

Lemma configure_logging_run (adapters : option (list Adapter))
  (intercept_stdlib : bool) (stdlib_loggers : option (list string))
  (w : World) :
  config.configure_logging adapters intercept_stdlib stdlib_loggers w
  = match LoggerCore.configure adapters w with
    | (Ok _, w1) =>
        (if negb intercept_stdlib then ret tt
         else
           for_each
             match stdlib_loggers with
             | None => config.default_stdlib_loggers
             | Some given => given
             end
             (fun logger_name =>
                logging.putLogger logger_name
                  {| std_handlers := [InterceptHandler];
                     std_propagate := false |})) w1
    | (Raise e, w1) => (Raise e, w1)
    end.
Proof. reflexivity. Qed.

Lemma configure_logging_when_configured (adapters : option (list Adapter))
  (intercept_stdlib : bool) (stdlib_loggers : option (list string))
  (w : World) :
  _configured w = true ->
  _adapters
    (snd (config.configure_logging adapters intercept_stdlib stdlib_loggers w))
  = _adapters w
  /\ loguru_handlers
       (snd (config.configure_logging adapters intercept_stdlib
               stdlib_loggers w))
     = loguru_handlers w.
Proof.
  intros H. rewrite configure_logging_run.
  rewrite (configure_when_configured adapters w H).
  destruct (negb intercept_stdlib); [now split|].
  split; frame.
Qed.

Lemma configure_logging_installs (adapters : option (list Adapter))
  (intercept_stdlib : bool) (stdlib_loggers : option (list string))
  (w : World) :
  _configured w = false ->
  _adapters
    (snd (config.configure_logging adapters intercept_stdlib stdlib_loggers w))
  = match adapters with
    | None => [ConsoleAdapter_default]
    | Some given => given
    end
  /\ (fst (config.configure_logging adapters intercept_stdlib
             stdlib_loggers w) = Ok tt ->
      _configured
        (snd (config.configure_logging adapters intercept_stdlib
                stdlib_loggers w)) = true).
Proof.
  intros H. rewrite configure_logging_run.
  pose proof (configure_installs adapters w H) as Hinst.
  pose proof (configure_ok_is_configured adapters w) as Hflag.
  destruct (LoggerCore.configure adapters w) as [[[]|e] w1];
    cbn [snd fst] in *; [|split; [exact Hinst | discriminate]].
  specialize (Hflag w1 eq_refl).
  destruct (negb intercept_stdlib); [now split|].
  split; [now rewrite intercept_keeps_adapters|].
  intros _. now rewrite intercept_keeps_configured.
Qed.

(** X8: the order of the two start-up calls matters.  When a named logger
    is requested first, the core is configured with the default Console
    adapter and a later [configure_logging_from_env] no longer changes the
    adapters, whatever the environment says.  When
    [configure_logging_from_env] runs first, as in [main.py], the adapter
    built from the environment is the one the core holds after the logger
    was requested. *)
Theorem logger_request_freezes_configuration (py : PyStr) (name : string)
  (environ : config.Environ) (kwargs : config.Kwargs) (w : World) :
  _configured w = false ->
  _adapters
    (snd ((LoggerCore.get_logger name ;;
           config.configure_logging_from_env py environ kwargs) w))
  = [ConsoleAdapter_default]
  /\ _adapters
       (snd ((config.configure_logging_from_env py environ kwargs ;;
              LoggerCore.get_logger name) w))
     = config.env_adapters py environ.
Proof.
  intros H. split.
  - unfold bind at 1.
    destruct (get_logger_run name w) as [t [w' [Hrun [_ [_ [Hf [_ Hdef]]]]]]].
    rewrite Hrun. destruct (Hdef H) as [Ha _].
    unfold config.configure_logging_from_env.
    now rewrite (proj1 (configure_logging_when_configured _ _ _ w' Hf)).
  - unfold bind at 1. unfold config.configure_logging_from_env.
    destruct (configure_logging_installs
                (Some (config.env_adapters py environ))
                match config.kw_intercept_stdlib kwargs with
                | Some b => b
                | None => true
                end (config.kw_stdlib_loggers kwargs) w H) as [Ha Hflag].
    destruct (config.configure_logging _ _ _ w) as [[[]|e] w1];
      cbn [snd fst] in *; [|exact Ha].
    specialize (Hflag eq_refl).
    destruct (get_logger_run name w1) as [t [w' [Hrun [_ [_ [_ [Hkeep _]]]]]]].
    rewrite Hrun. cbn [snd]. destruct (Hkeep Hflag) as [Hsame _]. congruence.
Qed.

Lemma logger_request_freezes_configuration_witness :
  _adapters
    (snd ((LoggerCore.get_logger "onboarding-mcp" ;;
           config.configure_logging_from_env py_ascii
             [("LOG_ENV", "google"); ("GCP_PROJECT_ID", "my-project")]
             config.no_kwargs) fresh_world))
  = [ConsoleAdapter_default]
  /\ _adapters
       (snd ((config.configure_logging_from_env py_ascii
                [("LOG_ENV", "google"); ("GCP_PROJECT_ID", "my-project")]
                config.no_kwargs ;;
              LoggerCore.get_logger "onboarding-mcp") fresh_world))
     = [GCPAdapter "INFO" (Some "my-project")].
Proof.
  exact (logger_request_freezes_configuration py_ascii "onboarding-mcp"
           [("LOG_ENV", "google"); ("GCP_PROJECT_ID", "my-project")]
           config.no_kwargs fresh_world eq_refl).
Defined.

(** X9: [reset_logging()] makes the core configurable again: from any
    state, a [configure(a)] that follows it installs [a] (the default
    Console adapter when [a] is absent), whereas without the reset a
    configured core keeps its adapters. *)
Theorem reset_then_configure_installs (a : option (list Adapter)) (w : World) :
  _adapters (snd ((config.reset_logging ;; LoggerCore.configure a) w))
  = match a with
    | None => [ConsoleAdapter_default]
    | Some given => given
    end
  /\ (_configured w = true ->
      _adapters (snd (LoggerCore.configure a w)) = _adapters w).
Proof.
  split.
  - unfold bind at 1.
    assert (Hreset : exists w1, config.reset_logging w = (Ok tt, w1)
                                /\ _configured w1 = false)
      by (eexists; split; reflexivity).
    destruct Hreset as [w1 [Hrun Hf]]. rewrite Hrun.
    now apply configure_installs.
  - intros H. now rewrite (configure_when_configured a w H).
Qed.

Lemma reset_then_configure_installs_witness :
  _adapters
    (snd ((config.reset_logging ;;
           LoggerCore.configure (Some [JSONAdapter "DEBUG"])) console_world))
  = [JSONAdapter "DEBUG"]
  /\ _adapters
       (snd (LoggerCore.configure (Some [JSONAdapter "DEBUG"]) console_world))
     = [ConsoleAdapter "INFO" true].
Proof.
  destruct (reset_then_configure_installs (Some [JSONAdapter "DEBUG"])
              console_world) as [Hreset Hkeep].
  split; [exact Hreset|]. rewrite (Hkeep eq_refl). reflexivity.
Defined.

(** ** Interception of the standard loggers *)

Lemma level_state (n : string) (w : World) : snd (loguru.level n w) = w.
Proof.
  unfold loguru.level. now destruct (loguru.find_level n (loguru.levels w)).
Qed.

(** Statements that leave the standard [logging] tree alone. *)
Ltac frame_logging :=
  repeat first
    [ rewrite level_state
    | apply for_each_preserves
    | apply bind_preserves
    | progress intros
    | reflexivity ].

Lemma configure_keeps_loggers (adapters : option (list Adapter)) (w : World) :
  logging_loggers (snd (LoggerCore.configure adapters w)) = logging_loggers w.
Proof.
  destruct (_configured w) eqn:H.
  - now rewrite (configure_when_configured adapters w H).
  - rewrite (configure_unconfigured adapters w H).
    match goal with
    | |- logging_loggers (snd (?m ?v)) = _ =>
        change (logging_loggers w) with (logging_loggers v)
    end.
    unfold loguru.add. frame_logging.
Qed.

Lemma intercept_run (names : list string) (w : World) :
  exists w' : World,
    for_each names (fun logger_name =>
      logging.putLogger logger_name
        {| std_handlers := [InterceptHandler]; std_propagate := false |}) w
    = (Ok tt, w')
    /\ (forall n : string,
          In (logging.logger_key n) (List.map logging.logger_key names) ->
          logging.getLogger n w'
          = {| std_handlers := [InterceptHandler]; std_propagate := false |})
    /\ (forall n : string,
          ~ In (logging.logger_key n) (List.map logging.logger_key names) ->
          logging.getLogger n w' = logging.getLogger n w).
Proof.
  revert w. induction names as [|x names IH]; intros w.
  - exists w. split; [reflexivity|]. split; [intros n []|reflexivity].
  - cbn [for_each]. unfold bind at 1. cbv beta.
    unfold logging.putLogger at 1, modify at 1.
    match goal with
    | |- context [for_each names ?f ?w1] =>
        destruct (IH w1) as [w' [Hrun [Hin Hout]]]
    end.
    exists w'. split; [exact Hrun|].
    assert (Hx : forall n, logging.logger_key n = logging.logger_key x ->
                 ~ In (logging.logger_key n)
                     (List.map logging.logger_key names) ->
                 logging.getLogger n w'
                 = {| std_handlers := [InterceptHandler];
                      std_propagate := false |}).
    { intros n Hn Hnot. rewrite (Hout n Hnot).
      unfold logging.getLogger, Dict.get_default.
      cbn [logging_loggers with_loggers]. rewrite Hn.
      now rewrite get_set_same. }
    split.
    + intros n Hn.
      destruct (in_dec string_dec (logging.logger_key n)
                  (List.map logging.logger_key names)) as [Hrest | Hrest];
        [now apply Hin|].
      destruct Hn as [Hn | Hn]; [|contradiction].
      now apply Hx.
    + intros n Hn. cbn [List.map] in Hn.
      rewrite Hout by (intros Hc; apply Hn; now right).
      unfold logging.getLogger, Dict.get_default.
      cbn [logging_loggers with_loggers].
      rewrite get_set_other; [reflexivity|].
      intros Hc. apply Hn. now left.
Qed.

(** X10: when [LoggerCore.configure] returns normally (in particular when
    the core was configured before), [configure_logging] with interception
    returns normally and every listed standard logger (the six default names
    when no list is given) ends with the single handler [InterceptHandler]
    and [propagate = False], whatever handlers it had; the other loggers are
    left alone.  With [intercept_stdlib=False] no standard logger changes. *)
Theorem configure_logging_intercepts (adapters : option (list Adapter))
  (stdlib_loggers : option (list string)) (w : World) :
  let names :=
    match stdlib_loggers with
    | None => config.default_stdlib_loggers
    | Some given => given
    end in
  let after := config.configure_logging adapters true stdlib_loggers w in
  logging_loggers
    (snd (config.configure_logging adapters false stdlib_loggers w))
  = logging_loggers w
  /\ (fst (LoggerCore.configure adapters w) = Ok tt ->
      fst after = Ok tt
      /\ (forall n : string,
            In (logging.logger_key n) (List.map logging.logger_key names) ->
            logging.getLogger n (snd after)
            = {| std_handlers := [InterceptHandler];
                 std_propagate := false |})
      /\ (forall n : string,
            ~ In (logging.logger_key n) (List.map logging.logger_key names) ->
            logging.getLogger n (snd after) = logging.getLogger n w)).
Proof.
  intros names after. split.
  - rewrite configure_logging_run.
    pose proof (configure_keeps_loggers adapters w) as Hk.
    destruct (LoggerCore.configure adapters w) as [[[]|e] w1]; exact Hk.
  - intros Hok. subst after. rewrite configure_logging_run.
    pose proof (configure_keeps_loggers adapters w) as Hk.
    destruct (LoggerCore.configure adapters w) as [[[]|e] w1];
      cbn [fst snd] in *; [|discriminate].
    cbn [negb]. fold names.
    destruct (intercept_run names w1) as [w' [Hrun [Hin Hout]]].
    rewrite Hrun. cbn [fst snd].
    split; [reflexivity|]. split; [exact Hin|].
    intros n Hn. rewrite (Hout n Hn).
    unfold logging.getLogger. now rewrite Hk.
Qed.

Lemma configure_logging_intercepts_witness :
  let after := config.configure_logging None true None console_world in
  fst after = Ok tt
  /\ logging.getLogger "uvicorn.access" (snd after)
     = {| std_handlers := [InterceptHandler]; std_propagate := false |}
  /\ logging.getLogger "httpx" (snd after)
     = logging.getLogger "httpx" console_world.
Proof.
  destruct (configure_logging_intercepts None None console_world)
    as [_ Hon].
  destruct (Hon eq_refl) as [Hok [Hin Hout]].
  split; [exact Hok|]. split.
  - apply Hin. cbn. tauto.
  - apply Hout. cbn. intros H.
    repeat (destruct H as [H | H]; [discriminate H|]). exact H.
Defined.

(** X11: [reset_logging()] resets the root logger only: afterwards the root
    logger has a single stream handler, and every other standard logger is
    as it was, so that a logger intercepted by [configure_logging] keeps its
    [InterceptHandler] across a reset. *)
Theorem reset_logging_keeps_interception (w : World) (n : string) :
  std_handlers (logging.getLogger "root" (snd (config.reset_logging w)))
  = [StreamHandler]
  /\ (logging.logger_key n <> "root" ->
      logging.getLogger n (snd (config.reset_logging w))
      = logging.getLogger n w).
Proof.
  assert (Hrun : logging_loggers (snd (config.reset_logging w))
                 = Dict.set "root"
                     {| std_handlers := [StreamHandler];
                        std_propagate :=
                          std_propagate (logging.getLogger "root" w) |}
                     (logging_loggers w)) by reflexivity.
  unfold logging.getLogger at 1 2, Dict.get_default. rewrite Hrun. split.
  - change (logging.logger_key "root") with "root".
    now rewrite get_set_same.
  - intros Hn. rewrite get_set_other by congruence. reflexivity.
Qed.

Lemma reset_logging_keeps_interception_witness :
  logging.logger_key "uvicorn" <> "root"
  /\ std_handlers
       (logging.getLogger "uvicorn"
          (snd ((config.configure_logging None true None ;;
                 config.reset_logging) fresh_world)))
     = [InterceptHandler].
Proof.
  split; [discriminate|].
  assert (Hseq : exists w1,
            (config.configure_logging None true None ;;
             config.reset_logging) fresh_world
            = config.reset_logging w1
            /\ std_handlers (logging.getLogger "uvicorn" w1)
               = [InterceptHandler])
    by (eexists; split; reflexivity).
  destruct Hseq as [w1 [-> Hw1]].
  rewrite (proj2 (reset_logging_keeps_interception w1 "uvicorn"));
    [exact Hw1 | discriminate].
Defined.

(** ** More on the cloud-schema entry *)


Lemma default_id_is_not_cloud_id (t : string) :
  is_default_trace_id t = true -> GCPAdapter._is_gcp_trace_id t = false.
Proof.
  unfold is_default_trace_id, GCPAdapter._is_gcp_trace_id. intros H.
  apply andb_true_iff in H as [Hlen _]. apply Nat.eqb_eq in Hlen.
  now rewrite Hlen.
Qed.

(** X12: a trace id of the default shape (8 characters of [0-9a-f], as
    [get_trace_id] and [reset_trace_id] generate them) is never accepted as
    a cloud trace id.  For a record carrying such an id, and no extra field
    named after the cloud trace key, the entry has the id under 'trace_id'
    and no 'logging.googleapis.com/trace' key, whatever the project id. *)
Theorem default_trace_id_never_fills_cloud_trace (project_id : option string)
  (record : GCPAdapter.LoguruRecord) :
  is_default_trace_id (GCPAdapter.record_trace_id record) = true ->
  GCPAdapter._is_gcp_trace_id (GCPAdapter.record_trace_id record) = false
  /\ Dict.get "trace_id" (GCPAdapter.log_entry project_id record)
     = Some (GCPAdapter.EVal (PStr (GCPAdapter.record_trace_id record)))
  /\ (Dict.get GCPAdapter.TRACE_KEY (GCPAdapter.rec_extra record) = None ->
      Dict.get GCPAdapter.TRACE_KEY (GCPAdapter.log_entry project_id record)
      = None).
Proof.
  intros Hdef.
  pose proof (default_id_is_not_cloud_id _ Hdef) as Hnot.
  pose proof (default_trace_id_nonempty _ Hdef) as Hne.
  split; [exact Hnot|]. unfold GCPAdapter.log_entry. split.
  - rewrite get_add_extras by (left; reflexivity).
    rewrite get_add_logger by discriminate.
    unfold GCPAdapter.add_trace. rewrite Hne, Hnot, andb_false_r.
    apply get_set_same.
  - intros Hextra.
    rewrite get_add_extras by (now right).
    rewrite get_add_logger by discriminate.
    unfold GCPAdapter.add_trace. rewrite Hne, Hnot, andb_false_r.
    now rewrite get_set_other by discriminate.
Qed.

Lemma default_trace_id_never_fills_cloud_trace_witness :
  is_default_trace_id (GCPAdapter.record_trace_id short_id_record) = true
  /\ Dict.get GCPAdapter.TRACE_KEY
       (GCPAdapter.log_entry (Some "my-project") short_id_record) = None.
Proof.
  split; [reflexivity|].
  apply (default_trace_id_never_fills_cloud_trace (Some "my-project")
           short_id_record eq_refl).
  reflexivity.
Defined.




Lemma get_absent_key {V : Type} (k : string) (d : list (string * V)) :
  ~ In k (List.map fst d) -> Dict.get k d = None.
Proof.
  induction d as [|[k0 v0] d IH]; intros H; [reflexivity|].
  cbn [Dict.get]. cbn [List.map fst In] in H.
  destruct (k0 =? k) eqn:E.
  - apply String.eqb_eq in E. exfalso. apply H. now left.
  - apply IH. intros Hin. apply H. now right.
Qed.

Lemma add_extras_writes (extra : list (string * pyval))
  (entry : list (string * GCPAdapter.EntryVal)) (k : string) (v : pyval) :
  NoDup (List.map fst extra) -> In (k, v) extra ->
  GCPAdapter.consumed k = false ->
  Dict.get k (GCPAdapter.add_extras extra entry) = Some (GCPAdapter.EVal v).
Proof.
  revert entry. induction extra as [|[k0 v0] extra IH]; intros entry Hnd Hin Hk;
    [contradiction|].
  cbn [List.map fst] in Hnd. inversion Hnd as [|? ? Hnotin Hnd']; subst.
  destruct Hin as [Heq | Hin].
  - injection Heq as -> ->.
    change (GCPAdapter.add_extras ((k, v) :: extra) entry)
      with (GCPAdapter.add_extras extra
              (if negb (GCPAdapter.consumed k)
               then Dict.set k (GCPAdapter.EVal v) entry else entry)).
    rewrite Hk. cbn [negb].
    rewrite get_add_extras by (right; now apply get_absent_key).
    apply get_set_same.
  - change (GCPAdapter.add_extras ((k0, v0) :: extra) entry)
      with (GCPAdapter.add_extras extra
              (if negb (GCPAdapter.consumed k0)
               then Dict.set k0 (GCPAdapter.EVal v0) entry else entry)).
    now apply IH.
Qed.

(** X14: every extra field of a record, other than 'trace_id' and 'name',
    is copied into the entry under its own key with its own value, also
    when the key is one the formatter wrote before ('severity', 'message',
    'timestamp', 'logger', the source location or the trace key): the
    extra field wins. *)
Theorem extras_are_flattened_last (project_id : option string)
  (record : GCPAdapter.LoguruRecord) (k : string) (v : pyval) :
  NoDup (List.map fst (GCPAdapter.rec_extra record)) ->
  In (k, v) (GCPAdapter.rec_extra record) ->
  k <> "trace_id" -> k <> "name" ->
  Dict.get k (GCPAdapter.log_entry project_id record)
  = Some (GCPAdapter.EVal v).
Proof.
  intros Hnd Hin H1 H2. unfold GCPAdapter.log_entry.
  apply add_extras_writes; [exact Hnd | exact Hin|].
  unfold GCPAdapter.consumed.
  apply String.eqb_neq in H1. apply String.eqb_neq in H2.
  now rewrite H1, H2.
Qed.

Lemma extras_are_flattened_last_witness :
  Dict.get "severity"
    (GCPAdapter.log_entry None
       (with_extra [("trace_id", PStr "05556afc"); ("severity", PStr "loud")]
          short_id_record))
  = Some (GCPAdapter.EVal (PStr "loud")).
Proof.
  apply (extras_are_flattened_last None
           (with_extra [("trace_id", PStr "05556afc");
                        ("severity", PStr "loud")] short_id_record)
           "severity" (PStr "loud")).
  - cbn. repeat constructor; cbn; intuition discriminate.
  - cbn. tauto.
  - discriminate.
  - discriminate.
Defined.

(** ** Shape of the entry *)

Lemma keys_set {V : Type} (k : string) (v : V) (d : list (string * V)) :
  List.map fst (Dict.set k v d)
  = if Dict.mem k d then List.map fst d else (List.map fst d ++ [k])%list.
Proof.
  induction d as [|[k0 v0] d IH]; [reflexivity|].
  unfold Dict.mem in *. cbn [Dict.set Dict.get].
  destruct (k0 =? k) eqn:E; [reflexivity|].
  cbn [List.map fst]. rewrite IH.
  now destruct (Dict.get k d).
Qed.

Lemma mem_false_not_in {V : Type} (k : string) (d : list (string * V)) :
  Dict.mem k d = false -> ~ In k (List.map fst d).
Proof.
  unfold Dict.mem. induction d as [|[k0 v0] d IH]; intros H; [intros []|].
  cbn [Dict.get] in H. cbn [List.map fst In].
  destruct (k0 =? k) eqn:E; [discriminate|].
  apply String.eqb_neq in E. intros [Hk | Hk]; [contradiction|].
  now apply IH.
Qed.

Lemma entry_ok_set {V : Type} (k : string) (v : V) (e : list (string * V)) :
  entry_ok e -> entry_ok (Dict.set k v e).
Proof.
  intros [Hnd Hfirst]. unfold entry_ok. rewrite keys_set.
  destruct (Dict.mem k e) eqn:Hmem; [now split|].
  apply mem_false_not_in in Hmem. split.
  - apply NoDup_app; [exact Hnd | repeat constructor; intros [] |].
    intros a Ha [<- | []]. contradiction.
  - rewrite firstn_app, Hfirst.
    assert (Hlen : (4 <= List.length (List.map fst e))%nat).
    { rewrite <- (firstn_skipn 4 (List.map fst e)), Hfirst, length_app.
      cbn. lia. }
    replace (4 - List.length (List.map fst e))%nat with 0%nat by lia.
    cbn [firstn]. apply app_nil_r.
Qed.

Lemma entry_ok_add_extras (extra : list (string * pyval))
  (e : list (string * GCPAdapter.EntryVal)) :
  entry_ok e -> entry_ok (GCPAdapter.add_extras extra e).
Proof.
  unfold GCPAdapter.add_extras. revert e.
  induction extra as [|[k v] extra IH]; intros e He; [exact He|].
  cbn [fold_left fst snd]. apply IH.
  destruct (negb (GCPAdapter.consumed k)); [now apply entry_ok_set | exact He].
Qed.

(** X15: the entry handed to [json.dumps] never holds a key twice, and its
    first four keys are always 'severity', 'message', 'timestamp' and the
    source location, in this order: later writes (trace fields, logger
    name, extras) replace a value in place or append a new key. *)
Theorem entry_keys_are_unique_and_ordered (project_id : option string)
  (record : GCPAdapter.LoguruRecord) :
  NoDup (List.map fst (GCPAdapter.log_entry project_id record))
  /\ firstn 4 (List.map fst (GCPAdapter.log_entry project_id record))
     = standard_keys.
Proof.
  change (entry_ok (GCPAdapter.log_entry project_id record)).
  unfold GCPAdapter.log_entry.
  apply entry_ok_add_extras.
  assert (Hbase : entry_ok (GCPAdapter.base_entry record)).
  { split; [|reflexivity]. cbn.
    repeat constructor; cbn; intuition discriminate. }
  assert (Htrace : entry_ok
            (GCPAdapter.add_trace project_id
               (GCPAdapter.record_trace_id record)
               (GCPAdapter.base_entry record))).
  { unfold GCPAdapter.add_trace.
    destruct (Str.nonempty _); [|exact Hbase].
    destruct (_ && _); repeat apply entry_ok_set; exact Hbase. }
  unfold GCPAdapter.add_logger.
  destruct (Dict.get "name" (GCPAdapter.rec_extra record)) as [n|];
    [|exact Htrace].
  destruct (truthy n); [now apply entry_ok_set | exact Htrace].
Qed.

(** ** Thresholds, once more *)

(** X17: [should_log] is monotone in the ordering DEBUG < INFO < WARNING <
    ERROR < CRITICAL: an adapter that admits a level admits every level at
    least as severe, and a level admitted by an adapter is admitted by
    every adapter whose minimum is not above that adapter's. *)
Theorem should_log_is_monotone (py : PyStr) (self other : Adapter)
  (level higher : string) :
  BaseAdapter.should_log py self level = Ok true ->
  (severity_ge py higher level ->
   BaseAdapter.should_log py self higher = Ok true)
  /\ (severity_ge py (adapter_level self) (adapter_level other) ->
      BaseAdapter.should_log py other level = Ok true).
Proof.
  rewrite !should_log_by_rank. unfold severity_ge.
  destruct (severity_rank py (adapter_level self)) as [m|]; [|discriminate].
  destruct (severity_rank py level) as [r|]; [|discriminate].
  intros H. injection H as H. apply Nat.leb_le in H. split.
  - intros [ra [rb [-> [Hrb Hle]]]]. injection Hrb as <-.
    f_equal. apply Nat.leb_le. lia.
  - intros [ra [rb [Hra [-> Hle]]]]. injection Hra as <-.
    f_equal. apply Nat.leb_le. lia.
Qed.

Lemma should_log_is_monotone_witness :
  BaseAdapter.should_log py_ascii (JSONAdapter "INFO") "warning" = Ok true
  /\ BaseAdapter.should_log py_ascii (JSONAdapter "INFO") "CRITICAL" = Ok true
  /\ BaseAdapter.should_log py_ascii (ConsoleAdapter "debug" true) "warning"
     = Ok true.
Proof.
  destruct (should_log_is_monotone py_ascii (JSONAdapter "INFO")
              (ConsoleAdapter "debug" true) "warning" "CRITICAL" eq_refl)
    as [Hup Hdown].
  split; [reflexivity|]. split.
  - apply Hup. exists 4%nat, 2%nat. repeat split. lia.
  - apply Hdown. exists 1%nat, 0%nat. repeat split. lia.
Defined.

(** ** The bridge, once more *)

(** X18: the depth handed to loguru is 2 plus the number of frames at the
    top of the stack that belong to the [logging] package: the walk stops at
    the first frame of another file, or at the end of the stack. *)
Theorem caller_depth_skips_logging_frames (logging_file : string) (n : nat)
  (depth : nat) :
  (forall (caller : string) (outer : list string),
     caller <> logging_file ->
     InterceptHandler.caller_depth logging_file
       (repeat logging_file n ++ caller :: outer) depth
     = (depth + n)%nat)
  /\ InterceptHandler.caller_depth logging_file (repeat logging_file n) depth
     = (depth + n)%nat.
Proof.
  revert depth. induction n as [|n IH]; intros depth.
  - split; [|cbn; lia]. intros caller outer Hne.
    cbn [repeat app InterceptHandler.caller_depth].
    apply String.eqb_neq in Hne. rewrite Hne. lia.
  - destruct (IH (S depth)) as [IH1 IH2].
    cbn [repeat app InterceptHandler.caller_depth].
    rewrite String.eqb_refl. split.
    + intros caller outer Hne. rewrite IH1 by exact Hne. lia.
    + rewrite IH2. lia.
Qed.

Lemma caller_depth_skips_logging_frames_witness :
  InterceptHandler.caller_depth "logging/__init__.py"
    ["logging/__init__.py"; "logging/__init__.py"; "logging/__init__.py";
     "uvicorn/server.py"; "logging/__init__.py"; "app.py"] 2
  = 5%nat.
Proof.
  apply (proj1 (caller_depth_skips_logging_frames "logging/__init__.py" 3 2)
           "uvicorn/server.py" ["logging/__init__.py"; "app.py"]).
  discriminate.
Defined.

Lemma emit_level_total (record : InterceptHandler.LogRecord) (w : World) :
  exists level : LevelArg,
    InterceptHandler.emit_level record w = (Ok level, w)
    /\ ((exists l, loguru.find_level (InterceptHandler.levelname record)
                     (loguru.levels w) = Some l
                   /\ level = LevelName (level_name l))
        \/ (loguru.find_level (InterceptHandler.levelname record)
              (loguru.levels w) = None
            /\ level = LevelNo (InterceptHandler.levelno record))).
Proof.
  destruct (loguru.find_level (InterceptHandler.levelname record)
              (loguru.levels w)) as [l|] eqn:E.
  - exists (LevelName (level_name l)). split; [|left; now exists l].
    apply emit_level_known. unfold loguru.level. now rewrite E.
  - exists (LevelNo (InterceptHandler.levelno record)). split; [|now right].
    apply emit_level_unknown with (c := InterceptHandler.levelname record).
    unfold loguru.level. now rewrite E.
Qed.

(** [emit] on a record that loguru will accept: the message formats, and the
    level name is registered or the level number is not negative. *)
Lemma emit_accepted (logging_file : string) (frames : list string)
  (record : InterceptHandler.LogRecord) (w : World) (message : string) :
  InterceptHandler.getMessage record = Ok message ->
  (exists l, loguru.find_level (InterceptHandler.levelname record)
               (loguru.levels w) = Some l)
  \/ (0 <= InterceptHandler.levelno record)%Z ->
  exists (t : string) (level : LevelArg) (w0 : World),
    LoggerCore.get_trace_id w = (Ok t, w0)
    /\ t <> ""
    /\ _trace_id_var w0 = Some t
    /\ loguru_handlers w0 = loguru_handlers w
    /\ loguru_calls w0 = loguru_calls w
    /\ loguru.levels w0 = loguru.levels w
    /\ InterceptHandler.emit logging_file frames record w
       = (Ok tt,
          accepted
            {| call_depth :=
                 InterceptHandler.caller_depth logging_file frames 2;
               call_exception := InterceptHandler.exc_info record;
               call_trace_id := t;
               call_name := InterceptHandler.name record;
               call_level := level;
               call_message := message |} w0).
Proof.
  intros Hmsg Hlevel.
  destruct (get_trace_id_frame w) as [t [w0 [Hget [Hne [Hs _]]]]].
  destruct (get_trace_id_loguru w) as [t' [w0' [Hget' [Hh [Hc Hlv]]]]].
  rewrite Hget in Hget'. injection Hget' as <- <-.
  destruct (emit_level_total record w) as [level [Hrun Hcase]].
  exists t, level, w0.
  do 6 (split; [assumption|]).
  rewrite (emit_after_level logging_file frames record w w0 level t Hrun Hget),
    Hmsg.
  destruct Hcase as [[l [Hfind ->]] | [Hnone ->]].
  - apply log_at_known_name with (n := level_name l) (l := l);
      [reflexivity|].
    now rewrite Hlv, (find_level_name _ _ _ Hfind).
  - apply log_at_number with (no := InterceptHandler.levelno record);
      [reflexivity|].
    destruct Hlevel as [[l Hl] | Hno]; [congruence | now left].
Qed.

(** X19: with a sink installed, two records that loguru accepts (the
    message formats, and the level name is registered or the level number is
    not negative) and that pass through the bridge one after the other in the
    same context reach loguru in that order and under one trace id, the
    context's own: the first [emit] generates and installs an id if the
    context has none, the second carries the same id, and [get_trace_id()]
    afterwards still returns it. *)
Theorem bridged_records_share_trace_id (logging_file : string)
  (frames1 frames2 : list string)
  (record1 record2 : InterceptHandler.LogRecord) (w : World)
  (message1 message2 : string) :
  loguru_handlers w <> [] ->
  InterceptHandler.getMessage record1 = Ok message1 ->
  InterceptHandler.getMessage record2 = Ok message2 ->
  ((exists l, loguru.find_level (InterceptHandler.levelname record1)
                (loguru.levels w) = Some l)
   \/ (0 <= InterceptHandler.levelno record1)%Z) ->
  ((exists l, loguru.find_level (InterceptHandler.levelname record2)
                (loguru.levels w) = Some l)
   \/ (0 <= InterceptHandler.levelno record2)%Z) ->
  exists (t : string) (c1 c2 : LogCall) (w' : World),
    (InterceptHandler.emit logging_file frames1 record1 ;;
     InterceptHandler.emit logging_file frames2 record2) w = (Ok tt, w')
    /\ fst (LoggerCore.get_trace_id w) = Ok t
    /\ loguru_calls w' = (loguru_calls w ++ [c1; c2])%list
    /\ call_trace_id c1 = t /\ call_trace_id c2 = t
    /\ call_message c1 = message1
    /\ call_message c2 = message2
    /\ call_name c1 = InterceptHandler.name record1
    /\ call_name c2 = InterceptHandler.name record2
    /\ LoggerCore.get_trace_id w' = (Ok t, w').
Proof.
  intros Hsink Hm1 Hm2 Hl1 Hl2.
  destruct (emit_accepted logging_file frames1 record1 w message1 Hm1 Hl1)
    as [t [lv1 [w0 [Hget [Hne [Hs [Hh [Hc [Hlv Hrun1]]]]]]]]].
  assert (Hacc : forall c (u : World),
            loguru_handlers u = loguru_handlers w ->
            accepted c u = with_calls (loguru_calls u ++ [c]) u).
  { intros c u Hu. unfold accepted. rewrite Hu.
    now destruct (loguru_handlers w). }
  rewrite (Hacc _ w0 Hh) in Hrun1.
  match type of Hrun1 with
  | _ = (Ok tt, ?w1) =>
      assert (Hl2' : (exists l,
                loguru.find_level (InterceptHandler.levelname record2)
                  (loguru.levels w1) = Some l)
              \/ (0 <= InterceptHandler.levelno record2)%Z)
        by (change (loguru.levels w1) with (loguru.levels w0);
            now rewrite Hlv);
      destruct (emit_accepted logging_file frames2 record2 w1 message2
                  Hm2 Hl2')
        as [t2 [lv2 [w2 [Hget2 [_ [_ [Hh2 [_ [_ Hrun2]]]]]]]]];
      rewrite (get_trace_id_present w1 t Hs Hne) in Hget2;
      assert (Hh1 : loguru_handlers w1 = loguru_handlers w) by exact Hh
  end.
  injection Hget2 as <- <-.
  rewrite (Hacc _ _ Hh1) in Hrun2.
  eexists t, _, _, _. split.
  { unfold bind. rewrite Hrun1. exact Hrun2. }
  split; [now rewrite Hget|].
  cbn [loguru_calls with_calls call_trace_id call_message call_name].
  split; [now rewrite <- app_assoc, Hc|].
  do 6 (split; [reflexivity|]).
  now apply get_trace_id_present.
Qed.

Lemma bridged_records_share_trace_id_witness :
  exists (t : string) (c1 c2 : LogCall) (w' : World),
    (InterceptHandler.emit "logging/__init__.py" ["app.py"] info_record ;;
     InterceptHandler.emit "logging/__init__.py" ["app.py"] level15_record)
      console_world = (Ok tt, w')
    /\ loguru_calls w' = (loguru_calls console_world ++ [c1; c2])%list
    /\ call_trace_id c1 = t /\ call_trace_id c2 = t.
Proof.
  destruct (bridged_records_share_trace_id "logging/__init__.py"
              ["app.py"] ["app.py"] info_record level15_record console_world
              "Test message" "Test message")
    as [t [c1 [c2 [w' [Hrun [_ [Hcalls [H1 [H2 _]]]]]]]]].
  - vm_compute. discriminate.
  - reflexivity.
  - reflexivity.
  - left. eexists. reflexivity.
  - right. vm_compute. discriminate.
  - exists t, c1, c2, w'. now repeat split.
Defined.

Lemma reset_trace_id_is_hex_of_four_bytes_witness :
  _trace_id_var (snd (LoggerCore.reset_trace_id fresh_world))
  = Some "155ea7f0"
  /\ _trace_id_var (snd (LoggerCore.reset_trace_id fresh_world))
     = _trace_id_var
         (snd (LoggerCore.reset_trace_id
                 (with_trace_id_var (Some "req-0001") fresh_world))).
Proof.
  destruct (reset_trace_id_is_hex_of_four_bytes fresh_world
              (with_trace_id_var (Some "req-0001") fresh_world))
    as [Hhex Hsame].
  split; [rewrite Hhex; vm_compute; reflexivity|].
  apply Hsame. reflexivity.
Defined.

(** ** From the environment to the entry *)

(** X20: when neither [GOOGLE_CLOUD_PROJECT] nor [GCP_PROJECT_ID] is set to
    a non-empty value, the cloud-schema adapter that
    [configure_logging_from_env] builds never writes the
    'logging.googleapis.com/trace' key, not even for a trace id of 32
    lowercase hexadecimal characters; the id is still written under
    'trace_id'. *)
Theorem no_project_in_environment_no_cloud_trace (py : PyStr)
  (environ : config.Environ)
  (level : string) (project_id : option string)
  (record : GCPAdapter.LoguruRecord) :
  config.env_adapters py environ = [GCPAdapter level project_id] ->
  (Dict.get "GOOGLE_CLOUD_PROJECT" environ = None
   \/ Dict.get "GOOGLE_CLOUD_PROJECT" environ = Some "") ->
  (Dict.get "GCP_PROJECT_ID" environ = None
   \/ Dict.get "GCP_PROJECT_ID" environ = Some "") ->
  Dict.get GCPAdapter.TRACE_KEY (GCPAdapter.rec_extra record) = None ->
  Dict.get GCPAdapter.TRACE_KEY (GCPAdapter.log_entry project_id record) = None
  /\ (GCPAdapter.record_trace_id record <> "" ->
      Dict.get "trace_id" (GCPAdapter.log_entry project_id record)
      = Some (GCPAdapter.EVal (PStr (GCPAdapter.record_trace_id record)))).
Proof.
  intros Henv Hg Hp Hextra.
  assert (Hfalsy : GCPAdapter.option_truthy project_id = false).
  { unfold config.env_adapters in Henv.
    destruct (_ =? config.GOOGLE_ENV_VALUE); [|discriminate].
    injection Henv as _ <-.
    unfold config.PROJECT_ID_VARS. cbn [config.project_id_loop].
    destruct Hg as [-> | ->]; destruct Hp as [-> | ->]; reflexivity. }
  unfold GCPAdapter.log_entry. split.
  - rewrite get_add_extras by (now right).
    rewrite get_add_logger by discriminate.
    unfold GCPAdapter.add_trace. rewrite Hfalsy. cbn [andb].
    destruct (Str.nonempty _); [|reflexivity].
    now rewrite get_set_other by discriminate.
  - intros Hne. apply nonempty_iff in Hne.
    rewrite get_add_extras by (left; reflexivity).
    rewrite get_add_logger by discriminate.
    unfold GCPAdapter.add_trace. rewrite Hfalsy, Hne. cbn [andb].
    apply get_set_same.
Qed.

Lemma no_project_in_environment_no_cloud_trace_witness :
  config.env_adapters py_ascii
    [("LOG_ENV", "google"); ("GCP_PROJECT_ID", "")]
  = [GCPAdapter "INFO" (Some "")]
  /\ GCPAdapter._is_gcp_trace_id (GCPAdapter.record_trace_id long_id_record)
     = true
  /\ Dict.get GCPAdapter.TRACE_KEY
       (GCPAdapter.log_entry (Some "") long_id_record) = None.
Proof.
  split; [reflexivity|]. split; [reflexivity|].
  apply (no_project_in_environment_no_cloud_trace py_ascii
           [("LOG_ENV", "google"); ("GCP_PROJECT_ID", "")] "INFO" (Some "")
           long_id_record eq_refl (or_introl eq_refl) (or_intror eq_refl)
           eq_refl).
Defined.
